(** * Toronto Bike Share: the station repository of [bikes.py]

    A shallow embedding of the station operations of [bikes.py] and the
    properties of its specification.

    - Python [int] is [Z]; Python [float] is IEEE 754 binary64, modelled
      with the Standard Library's [spec_float] operations (sign, mantissa
      and exponent, round to nearest even), so that every definition runs.
    - A station row [[id, name, lat, lon, capacity, bikes, docks,
      is_renting, is_returning]] is a record, typed as the cleaned data
      is; the repository is the list of rows, read with [stations !! i]
      and written with [<[i := row]> stations]. The rows are distinct
      objects, as [csv_to_list] builds them.
    - The functions take the repository by reference and may raise, so they
      live in a state-and-exception monad over the repository. A [for] loop
      over [range(len(stations))] is [for_range].
    - [math.atan2] belongs to the C library and is a parameter.

    The first part holds the definitions: the model of the source, then the
    vocabulary of the proofs. The second part holds the lemmas and the
    theorems: every loop is shown to be a sweep over the list, and the
    properties are proved on the sweeps. *)

From Stdlib Require Import ZArith List Bool Lia String.
From Stdlib Require Import SpecFloat.
From stdpp Require Import base list.

Local Open Scope Z_scope.

(** ** Exceptions and results *)

Inductive exn : Type :=
| ZeroDivisionError
| OverflowError
| ValueError
| IndexError
| UnboundLocalError.

Inductive result (A : Type) : Type :=
| Ok (a : A)
| Raise (e : exn).

Arguments Ok {A} a.
Arguments Raise {A} e.

Definition rbind {A B : Type} (r : result A) (f : A -> result B) : result B :=
  match r with
  | Ok a => f a
  | Raise e => Raise e
  end.

Notation "'try' x ':=' r 'in' k" := (rbind r (fun x => k))
  (at level 10, x name, r at level 100, k at level 200).

(** ** Python floats *)

Module PyFloat.

Definition prec : Z := 53.
Definition emax : Z := 1024.

Definition float : Type := spec_float.

Definition add : float -> float -> float := SFadd prec emax.
Definition sub : float -> float -> float := SFsub prec emax.
Definition mul : float -> float -> float := SFmul prec emax.
Definition div : float -> float -> float := SFdiv prec emax.
Definition eqb : float -> float -> bool := SFeqb.
Definition ltb : float -> float -> bool := SFltb.
Definition leb : float -> float -> bool := SFleb.
Definition gtb (x y : float) : bool := SFltb y x.
Definition geb (x y : float) : bool := SFleb y x.

(** [float(n)] for an [int]: the nearest double, ties to even;
    [OverflowError] when [n] is too large. *)
Definition of_int (n : Z) : result float :=
  match binary_normalize prec emax n 0 false with
  | S754_infinity _ => Raise OverflowError
  | f => Ok f
  end.

(** [a / b] on two [int]s: the correctly rounded quotient. *)
Definition int_true_divide (a b : Z) : result float :=
  if b =? 0 then Raise ZeroDivisionError
  else
    match a with
    | Z0 => Ok (S754_zero (b <? 0))
    | _ =>
        match div (S754_finite (a <? 0) (Z.to_pos (Z.abs a)) 0)
                  (S754_finite (b <? 0) (Z.to_pos (Z.abs b)) 0) with
        | S754_infinity _ => Raise OverflowError
        | f => Ok f
        end
    end.

(** A decimal literal [num / den] of the source text, e.g. [22.5] is
    [literal 225 10]. *)
Definition literal (num den : Z) : float :=
  match int_true_divide num den with
  | Ok f => f
  | Raise _ => S754_nan
  end.

(** [round(x)] with one argument: the nearest [int], ties to even. *)
Definition round (x : float) : result Z :=
  match x with
  | S754_nan => Raise ValueError
  | S754_infinity _ => Raise OverflowError
  | S754_zero _ => Ok 0
  | S754_finite s m e =>
      let n :=
        match e with
        | Zneg k =>
            let d := 2 ^ Zpos k in
            let q := Zpos m / d in
            let r := Zpos m mod d in
            match 2 * r ?= d with
            | Lt => q
            | Gt => q + 1
            | Eq => if Z.even q then q else q + 1
            end
        | _ => Zpos m * 2 ^ e
        end in
      Ok (if s then - n else n)
  end.

(** [math.pi] *)
Definition pi : float := S754_finite false 7074237752028440 (-51).

End PyFloat.

Abbreviation float := PyFloat.float.

(** ** Stations and the repository *)

(** One row of the cleaned data; the projections carry the names of the
    column constants [ID = 0], ..., [IS_RETURNING = 8]. *)
Record Station : Type := mkStation {
  ID : Z;
  NAME : string;
  LATITUDE : float;
  LONGITUDE : float;
  CAPACITY : Z;
  BIKES_AVAILABLE : Z;
  DOCKS_AVAILABLE : Z;
  IS_RENTING : bool;
  IS_RETURNING : bool
}.

Abbreviation SystemData := (list Station).
Abbreviation StationList := (list Z).

(** [row[5] = v] and [row[6] = v] *)
Definition set_bikes (v : Z) (row : Station) : Station :=
  mkStation (ID row) (NAME row) (LATITUDE row) (LONGITUDE row) (CAPACITY row)
            v (DOCKS_AVAILABLE row) (IS_RENTING row) (IS_RETURNING row).

Definition set_docks (v : Z) (row : Station) : Station :=
  mkStation (ID row) (NAME row) (LATITUDE row) (LONGITUDE row) (CAPACITY row)
            (BIKES_AVAILABLE row) v (IS_RENTING row) (IS_RETURNING row).

(** The values a query may put in a list it returns. *)
Inductive pyobj : Type :=
| PyStr (s : string)
| PyInt (n : Z).

(** ** The monad of the functions: the repository by reference, exceptions *)

Definition Py (A : Type) : Type := SystemData -> result A * SystemData.

Definition ret {A : Type} (a : A) : Py A :=
  fun stations => (Ok a, stations).

Definition bind {A B : Type} (m : Py A) (k : A -> Py B) : Py B :=
  fun stations =>
    match m stations with
    | (Ok a, stations') => k a stations'
    | (Raise e, stations') => (Raise e, stations')
    end.

Notation "'let*' x ':=' m 'in' k" := (bind m (fun x => k))
  (at level 10, x pattern, m at level 100, k at level 200).

Definition lift {A : Type} (r : result A) : Py A :=
  fun stations => (r, stations).

(** [len(stations)] *)
Definition len : Py nat :=
  fun stations => (Ok (length stations), stations).

(** [stations[i][field]] *)
Definition cell {A : Type} (i : nat) (field : Station -> A) : Py A :=
  fun stations =>
    match stations !! i with
    | Some row => (Ok (field row), stations)
    | None => (Raise IndexError, stations)
    end.

(** [stations[i][k] = v], with [upd] the update of column [k] *)
Definition store (i : nat) (upd : Station -> Station) : Py unit :=
  fun stations =>
    match stations !! i with
    | Some row => (Ok tt, <[i := upd row]> stations)
    | None => (Raise IndexError, stations)
    end.

(** A local variable that may not have been assigned yet. *)
Definition local {A : Type} (v : option A) : Py A :=
  match v with
  | Some a => ret a
  | None => lift (Raise UnboundLocalError)
  end.

(** [for i in range(i, i + count): acc = body i acc] *)
Fixpoint for_from {L : Type} (body : nat -> L -> Py L) (i count : nat) (acc : L)
  : Py L :=
  match count with
  | O => ret acc
  | S count' => let* acc' := body i acc in for_from body (S i) count' acc'
  end.

(** [for i in range(len(stations)): acc = body i acc] *)
Definition for_range {L : Type} (body : nat -> L -> Py L) (init : L) : Py L :=
  let* n := len in for_from body 0 n init.

(** ** Query operations *)

(** [get_station_info(station_id, stations)] *)
Definition get_station_info_body (station_id : Z) (i : nat)
  (avaliable_bikes_docks : list pyobj) : Py (list pyobj) :=
  let* id := cell i ID in
  if id =? station_id then
    let* name := cell i NAME in
    let* bikes := cell i BIKES_AVAILABLE in
    let* docks := cell i DOCKS_AVAILABLE in
    ret (avaliable_bikes_docks ++ [PyStr name; PyInt bikes; PyInt docks])
  else ret avaliable_bikes_docks.

Definition get_station_info (station_id : Z) : Py (list pyobj) :=
  for_range (get_station_info_body station_id) [].

(** The columns that hold [int]s, the ones [get_total] may be asked for. *)
Inductive IntColumn : Type :=
| COL_ID
| COL_CAPACITY
| COL_BIKES_AVAILABLE
| COL_DOCKS_AVAILABLE.

Definition column (index : IntColumn) : Station -> Z :=
  match index with
  | COL_ID => ID
  | COL_CAPACITY => CAPACITY
  | COL_BIKES_AVAILABLE => BIKES_AVAILABLE
  | COL_DOCKS_AVAILABLE => DOCKS_AVAILABLE
  end.

(** [get_total(index, stations)] *)
Definition get_total_body (index : IntColumn) (i : nat) (total : Z) : Py Z :=
  let* v := cell i (column index) in ret (total + v).

Definition get_total (index : IntColumn) : Py Z :=
  for_range (get_total_body index) 0.

(** [max(l)]: the first of the largest items; [ValueError] on [[]]. *)
Definition py_max (l : list Z) : result Z :=
  match l with
  | [] => Raise ValueError
  | x :: l' => Ok (fold_left (fun m y => if m <? y then y else m) l' x)
  end.

(** [l.index(v)]: the first position of [v]; [ValueError] when absent. *)
Fixpoint py_index (v : Z) (l : list Z) : result nat :=
  match l with
  | [] => Raise ValueError
  | x :: l' => if x =? v then Ok O else try k := py_index v l' in Ok (S k)
  end.

(** [get_station_with_max_bikes(stations)] *)
Definition max_bikes_body (i : nat) (max_bikes : list Z) : Py (list Z) :=
  let* bikes := cell i BIKES_AVAILABLE in ret (max_bikes ++ [bikes]).

Definition get_station_with_max_bikes : Py Z :=
  let* max_bikes := for_range max_bikes_body [] in
  let* largest := lift (py_max max_bikes) in
  let* maximum := lift (py_index largest max_bikes) in
  cell maximum ID.

(** [get_stations_with_n_docks(n, stations)] *)
Definition n_docks_body (n : Z) (i : nat) (stations_with_n_docks : StationList)
  : Py StationList :=
  let* docks := cell i DOCKS_AVAILABLE in
  if n <=? docks then
    let* id := cell i ID in ret (stations_with_n_docks ++ [id])
  else ret stations_with_n_docks.

Definition get_stations_with_n_docks (n : Z) : Py StationList :=
  for_range (n_docks_body n) [].

(** The chain of comparisons at the end of [get_direction]; [None] is what
    Python returns when no branch is taken. *)
Definition direction_of_degree (degree : float) : option string :=
  let c22 := PyFloat.literal 225 10 in
  let c67 := PyFloat.literal 675 10 in
  let c112 := PyFloat.literal 1125 10 in
  let c157 := PyFloat.literal 1575 10 in
  let c0 := PyFloat.literal 0 1 in
  let c180 := PyFloat.literal 180 1 in
  let neg := SFopp in
  let gt := PyFloat.gtb in
  let lt := PyFloat.ltb in
  let ge := PyFloat.geb in
  let le := PyFloat.leb in
  if (gt degree (neg c22) && lt degree c0) || (lt degree c22 && gt degree c0)
  then Some "WEST"%string
  else if ge degree c22 && le degree c67 then Some "SOUTHWEST"%string
  else if gt degree c67 && lt degree c112 then Some "SOUTH"%string
  else if ge degree c112 && le degree c157 then Some "SOUTHEAST"%string
  else if (gt degree c157 && lt degree c180)
          || (lt degree (neg c157) && gt degree (neg c180))
  then Some "EAST"%string
  else if ge degree (neg c157) && le degree (neg c112)
  then Some "NORTHEAST"%string
  else if gt degree (neg c112) && lt degree (neg c67) then Some "NORTH"%string
  else if ge degree (neg c67) && ge degree (neg c22)
  then Some "NORTHWEST"%string
  else None.

Section Direction.

(** [math.atan2], the C library's arctangent of two arguments: it is not
    part of the repository and is taken as a parameter. *)
Variable atan2 : float -> float -> float.

(** The four locals of [get_direction], unassigned before the loop. *)
Definition coordinates : Type :=
  (option float * option float * option float * option float)%type.

(** [(180*math.atan2(lat_s - lat_e, lon_s - lon_e))/math.pi] *)
Definition degree_of (latitude_start longitude_start latitude_end
                        longitude_end : float) : float :=
  PyFloat.div
    (PyFloat.mul (PyFloat.literal 180 1)
       (atan2 (PyFloat.sub latitude_start latitude_end)
              (PyFloat.sub longitude_start longitude_end)))
    PyFloat.pi.

(** The loop of [get_direction] that looks the two stations up. *)
Definition get_direction_body (start_id end_id : Z) (i : nat)
  (locals : coordinates) : Py coordinates :=
  let '(latitude_start, longitude_start, latitude_end, longitude_end) :=
    locals in
  let* id := cell i ID in
  if id =? start_id then
    let* lat := cell i LATITUDE in
    let* lon := cell i LONGITUDE in
    ret (Some lat, Some lon, latitude_end, longitude_end)
  else
    let* id := cell i ID in
    if id =? end_id then
      let* lat := cell i LATITUDE in
      let* lon := cell i LONGITUDE in
      ret (latitude_start, longitude_start, Some lat, Some lon)
    else ret locals.

(** [get_direction(start_id, end_id, stations)] *)
Definition get_direction (start_id end_id : Z) : Py (option string) :=
  let* found :=
    for_range (get_direction_body start_id end_id) (None, None, None, None) in
  let '(latitude_start, longitude_start, latitude_end, longitude_end) :=
    found in
  let* longitude_start := local longitude_start in
  let* longitude_end := local longitude_end in
  let longitude_start :=
    if PyFloat.eqb longitude_start longitude_end
    then PyFloat.add longitude_start (PyFloat.literal 1 100000)
    else longitude_start in
  let* latitude_start := local latitude_start in
  let* latitude_end := local latitude_end in
  ret (direction_of_degree
         (degree_of latitude_start longitude_start latitude_end
            longitude_end)).

End Direction.

(** ** Mutating operations *)

(** [rent_bike(station_id, stations)] *)
Definition rent_bike_body (station_id : Z) (i : nat) (rental : bool)
  : Py bool :=
  let* id := cell i ID in
  if id =? station_id then
    let* renting := cell i IS_RENTING in
    let* bikes := cell i BIKES_AVAILABLE in
    if renting && (0 <? bikes) then
      let* bikes := cell i BIKES_AVAILABLE in
      let* _ := store i (set_bikes (bikes - 1)) in
      let* docks := cell i DOCKS_AVAILABLE in
      let* _ := store i (set_docks (docks + 1)) in
      ret true
    else ret rental
  else ret rental.

Definition rent_bike (station_id : Z) : Py bool :=
  for_range (rent_bike_body station_id) false.

(** [return_bike(station_id, stations)] *)
Definition return_bike_body (station_id : Z) (i : nat) (returning_bike : bool)
  : Py bool :=
  let* id := cell i ID in
  if id =? station_id then
    let* returning := cell i IS_RETURNING in
    let* docks := cell i DOCKS_AVAILABLE in
    if returning && (0 <? docks) then
      let* bikes := cell i BIKES_AVAILABLE in
      let* _ := store i (set_bikes (bikes + 1)) in
      let* docks := cell i DOCKS_AVAILABLE in
      let* _ := store i (set_docks (docks - 1)) in
      ret true
    else ret returning_bike
  else ret returning_bike.

Definition return_bike (station_id : Z) : Py bool :=
  for_range (return_bike_body station_id) false.

(** [round((bikes/(bikes + docks))*100)] *)
Definition percentage (bikes docks : Z) : result Z :=
  try ratio := PyFloat.int_true_divide bikes (bikes + docks) in
  try hundred := PyFloat.of_int 100 in
  PyFloat.round (PyFloat.mul ratio hundred).

(** [round((-overall_percentage/100)*(bikes + docks) + bikes)] *)
Definition number_remove_of (overall_percentage bikes docks : Z) : result Z :=
  try share := PyFloat.int_true_divide (- overall_percentage) 100 in
  try total := PyFloat.of_int (bikes + docks) in
  try have := PyFloat.of_int bikes in
  PyFloat.round (PyFloat.add (PyFloat.mul share total) have).

(** [round((overall_percentage/100)*(bikes + docks) - bikes)] *)
Definition number_add_of (overall_percentage bikes docks : Z) : result Z :=
  try share := PyFloat.int_true_divide overall_percentage 100 in
  try total := PyFloat.of_int (bikes + docks) in
  try have := PyFloat.of_int bikes in
  PyFloat.round (PyFloat.sub (PyFloat.mul share total) have).

(** The three values both loops of [balance_all_bikes] compute for row [i]. *)
Definition station_figures (overall_percentage : Z) (i : nat)
  : Py (Z * Z * Z) :=
  let* bikes := cell i BIKES_AVAILABLE in
  let* docks := cell i DOCKS_AVAILABLE in
  let* station_average := lift (percentage bikes docks) in
  let* number_remove :=
    lift (number_remove_of overall_percentage bikes docks) in
  let* number_add := lift (number_add_of overall_percentage bikes docks) in
  ret (station_average, number_remove, number_add).

(** First loop: the overall numbers of docks and of bikes. *)
Definition totals_body (i : nat) (totals : Z * Z) : Py (Z * Z) :=
  let '(overall_spaces, overall_bikes) := totals in
  let* docks := cell i DOCKS_AVAILABLE in
  let* bikes := cell i BIKES_AVAILABLE in
  ret (overall_spaces + docks, overall_bikes + bikes).

(** Second loop: the pools of excess and of missing bikes. *)
Definition pools_body (overall_percentage : Z) (i : nat) (pools : Z * Z)
  : Py (Z * Z) :=
  let '(excess_bikes, deficit_bikes) := pools in
  let* figures := station_figures overall_percentage i in
  let '(station_average, number_remove, number_add) := figures in
  if overall_percentage <? station_average then
    ret (excess_bikes + number_remove, deficit_bikes)
  else if station_average <? overall_percentage then
    ret (excess_bikes, deficit_bikes + number_add)
  else ret (excess_bikes, deficit_bikes).

(** Third loop: the bikes are moved. *)
Definition move_body (overall_percentage : Z) (i : nat) (pools : Z * Z)
  : Py (Z * Z) :=
  let '(excess_bikes, deficit_bikes) := pools in
  let* figures := station_figures overall_percentage i in
  let '(station_average, number_remove, number_add) := figures in
  let* renting := cell i IS_RENTING in
  let* returning := cell i IS_RETURNING in
  let* docks := cell i DOCKS_AVAILABLE in
  if (overall_percentage <? station_average) && renting
     && (0 <? excess_bikes) then
    let* bikes := cell i BIKES_AVAILABLE in
    let* _ := store i (set_bikes (bikes - number_remove)) in
    let* docks := cell i DOCKS_AVAILABLE in
    let* _ := store i (set_docks (docks + number_remove)) in
    ret (excess_bikes - number_remove, deficit_bikes)
  else if (station_average <? overall_percentage) && returning
          && (0 <? docks) && (0 <? deficit_bikes) then
    let* bikes := cell i BIKES_AVAILABLE in
    let* _ := store i (set_bikes (bikes + number_add)) in
    let* docks := cell i DOCKS_AVAILABLE in
    let* _ := store i (set_docks (docks - number_add)) in
    ret (excess_bikes, deficit_bikes - number_add)
  else ret (excess_bikes, deficit_bikes).

(** [balance_all_bikes(stations)] *)
Definition balance_all_bikes : Py unit :=
  let* totals := for_range totals_body (0, 0) in
  let '(overall_spaces, overall_bikes) := totals in
  let* overall_percentage := lift (percentage overall_bikes overall_spaces) in
  let* pools := for_range (pools_body overall_percentage) (0, 0) in
  let* _ := for_range (move_body overall_percentage) pools in
  ret tt.

(** ** The sample data of the source *)

Definition SAMPLE_STATIONS : SystemData :=
  [ mkStation 7087 "Danforth/Aldridge"
      (PyFloat.literal 43684371 1000000)
      (SFopp (PyFloat.literal 79316756 1000000)) 23 9 14 true true;
    mkStation 7088 "Danforth/Coxwell"
      (PyFloat.literal 43683378 1000000)
      (SFopp (PyFloat.literal 79322961 1000000)) 15 13 2 false false ].

Definition HANDOUT_STATIONS : SystemData :=
  [ mkStation 7000 "Ft. York / Capreol Crt."
      (PyFloat.literal 43639832 1000000)
      (SFopp (PyFloat.literal 79395954 1000000)) 31 20 11 true true;
    mkStation 7001 "Lower Jarvis St / The Esplanade"
      (PyFloat.literal 43647992 1000000)
      (SFopp (PyFloat.literal 79370907 1000000)) 15 5 10 true true ].

(** ** Further data, for the examples *)

(** Two stations of ten places each: one full and closed for renting, one
    empty. The overall percentage is 50; the first keeps its ten bikes, the
    second is given five. *)
Definition UNEVEN_STATIONS : SystemData :=
  [ mkStation 1 "Full" (PyFloat.literal 43 1) (SFopp (PyFloat.literal 79 1))
      10 10 0 false true;
    mkStation 2 "Empty" (PyFloat.literal 44 1) (SFopp (PyFloat.literal 80 1))
      10 0 10 true true ].

(** Two stations that are both half full. *)
Definition EVEN_STATIONS : SystemData :=
  [ mkStation 1 "Small" (PyFloat.literal 43 1) (SFopp (PyFloat.literal 79 1))
      10 5 5 true true;
    mkStation 2 "Large" (PyFloat.literal 44 1) (SFopp (PyFloat.literal 80 1))
      20 10 10 true true ].

(** A start station and an end station one degree further north and one
    degree further west. *)
Definition NORTHWEST_STATIONS : SystemData :=
  [ mkStation 1 "Start" (PyFloat.literal 43 1) (SFopp (PyFloat.literal 79 1))
      10 5 5 true true;
    mkStation 2 "End" (PyFloat.literal 44 1) (SFopp (PyFloat.literal 80 1))
      10 5 5 true true ].

(** The double nearest to [-pi/4], [-0x1.921fb54442d18p-1], which is
    [math.atan2(-1.0, 1.0)]. *)
Definition minus_quarter_pi : float := S754_finite true 7074237752028440 (-53).

(** [0x1.44fd86ef9433cp-3], about 0.15868668955456566. *)
Definition sample_angle : float := S754_finite false 5717290527572796 (-55).

(** An arctangent that is right at the two pairs of arguments used. *)
Definition atan2_at_samples (y x : float) : float :=
  if PyFloat.eqb y (SFopp (PyFloat.literal 1 1)) then minus_quarter_pi
  else sample_angle.

(** ** Loops over the rows as sweeps

    Every loop of the source visits the rows in order and, at row [i],
    reads and writes row [i] only. Such a loop is a structural sweep over
    the list: [step acc row] gives the new accumulator and the new row, or
    raises, in which case the rows from [i] on are left as they are. *)

Fixpoint sweep {L : Type} (step : L -> Station -> result (L * Station))
  (rows : list Station) (acc : L) : result L * list Station :=
  match rows with
  | [] => (Ok acc, [])
  | row :: rows' =>
      match step acc row with
      | Ok (acc', row') =>
          let (res, rows'') := sweep step rows' acc' in (res, row' :: rows'')
      | Raise e => (Raise e, row :: rows')
      end
  end.

(** What it means for a loop body to act on row [i] as [step] does. *)
Definition row_local {L : Type} (body : nat -> L -> Py L)
  (step : L -> Station -> result (L * Station)) : Prop :=
  forall (i : nat) (acc : L) (stations : SystemData) (row : Station),
    stations !! i = Some row ->
    body i acc stations =
      match step acc row with
      | Ok (acc', row') => (Ok acc', <[i := row']> stations)
      | Raise e => (Raise e, stations)
      end.

(** The step of a loop that updates its accumulator and writes nothing. *)
Definition reading {L : Type} (g : L -> Station -> L) (acc : L) (row : Station)
  : result (L * Station) :=
  Ok (g acc row, row).

(** ** The steps of the loops *)

(** A bike leaves the row; a bike comes back to the row. *)
Definition rented (row : Station) : Station :=
  set_docks (DOCKS_AVAILABLE row + 1) (set_bikes (BIKES_AVAILABLE row - 1) row).

Definition returned (row : Station) : Station :=
  set_docks (DOCKS_AVAILABLE row - 1) (set_bikes (BIKES_AVAILABLE row + 1) row).

Definition can_rent (station_id : Z) (row : Station) : bool :=
  (ID row =? station_id) && IS_RENTING row && (0 <? BIKES_AVAILABLE row).

Definition can_return (station_id : Z) (row : Station) : bool :=
  (ID row =? station_id) && IS_RETURNING row && (0 <? DOCKS_AVAILABLE row).

Definition rent_step (station_id : Z) (rental : bool) (row : Station)
  : result (bool * Station) :=
  Ok (if can_rent station_id row then (true, rented row) else (rental, row)).

Definition return_step (station_id : Z) (returning_bike : bool) (row : Station)
  : result (bool * Station) :=
  Ok (if can_return station_id row then (true, returned row)
      else (returning_bike, row)).

(** The locals of [get_direction] after one more row. *)
Definition locate (start_id end_id : Z) (locals : coordinates) (row : Station)
  : coordinates :=
  let '(latitude_start, longitude_start, latitude_end, longitude_end) :=
    locals in
  if ID row =? start_id
  then (Some (LATITUDE row), Some (LONGITUDE row), latitude_end, longitude_end)
  else if ID row =? end_id
       then (latitude_start, longitude_start,
             Some (LATITUDE row), Some (LONGITUDE row))
       else locals.

(** The coordinates of the last row with the id, or [found] if there is
    none. *)
Definition last_coordinates (station_id : Z) (rows : list Station)
  (found : option float * option float) : option float * option float :=
  fold_left
    (fun found row =>
       if ID row =? station_id
       then (Some (LATITUDE row), Some (LONGITUDE row))
       else found)
    rows found.

(** The station average, the number to remove and the number to add of a
    row, for the overall percentage [p]. *)
Definition figures (p : Z) (row : Station) : result (Z * Z * Z) :=
  try station_average :=
    percentage (BIKES_AVAILABLE row) (DOCKS_AVAILABLE row) in
  try number_remove :=
    number_remove_of p (BIKES_AVAILABLE row) (DOCKS_AVAILABLE row) in
  try number_add :=
    number_add_of p (BIKES_AVAILABLE row) (DOCKS_AVAILABLE row) in
  Ok (station_average, number_remove, number_add).

(** [k] bikes more and [k] docks fewer in a row ([k] may be negative). *)
Definition moved (k : Z) (row : Station) : Station :=
  set_docks (DOCKS_AVAILABLE row - k) (set_bikes (BIKES_AVAILABLE row + k) row).

Definition totals_step : Z * Z -> Station -> result (Z * Z * Station) :=
  reading (fun totals row =>
             (fst totals + DOCKS_AVAILABLE row,
              snd totals + BIKES_AVAILABLE row)).

Definition pools_step (p : Z) (pools : Z * Z) (row : Station)
  : result (Z * Z * Station) :=
  let '(excess_bikes, deficit_bikes) := pools in
  try fig := figures p row in
  let '(station_average, number_remove, number_add) := fig in
  Ok (if p <? station_average then (excess_bikes + number_remove, deficit_bikes)
      else if station_average <? p
           then (excess_bikes, deficit_bikes + number_add)
           else (excess_bikes, deficit_bikes),
      row).

Definition move_step (p : Z) (pools : Z * Z) (row : Station)
  : result (Z * Z * Station) :=
  let '(excess_bikes, deficit_bikes) := pools in
  try fig := figures p row in
  let '(station_average, number_remove, number_add) := fig in
  Ok (if (p <? station_average) && IS_RENTING row && (0 <? excess_bikes)
      then ((excess_bikes - number_remove, deficit_bikes),
            moved (- number_remove) row)
      else if (station_average <? p) && IS_RETURNING row
              && (0 <? DOCKS_AVAILABLE row) && (0 <? deficit_bikes)
           then ((excess_bikes, deficit_bikes - number_add),
                 moved number_add row)
           else ((excess_bikes, deficit_bikes), row)).

(** ** The vocabulary of the properties *)

(** The sum of a column, as [get_total] computes it. *)
Definition sum_column (field : Station -> Z) (rows : list Station) : Z :=
  foldr (fun row total => field row + total) 0 rows.

(** A repository in which [station_id] is the id of row [i] and of no other. *)
Definition unique_at (station_id : Z) (i : nat) (row : Station)
  (stations : SystemData) : Prop :=
  stations !! i = Some row /\ ID row = station_id /\
  forall (j : nat) (row' : Station),
    stations !! j = Some row' -> ID row' = station_id -> j = i.

(** Row [row'] is what the third loop may leave in the place of [row] when
    the overall percentage is [p]: the same row, or the row with its own
    rounded surplus taken out (a renting row above [p]), or with its own
    rounded deficit put in (a returning row with docks, below [p]). *)
Definition adjusted (p : Z) (row row' : Station) : Prop :=
  row' = row \/
  (exists station_average number_remove,
     percentage (BIKES_AVAILABLE row) (DOCKS_AVAILABLE row)
       = Ok station_average /\
     number_remove_of p (BIKES_AVAILABLE row) (DOCKS_AVAILABLE row)
       = Ok number_remove /\
     p < station_average /\ IS_RENTING row = true /\
     row' = moved (- number_remove) row) \/
  (exists station_average number_add,
     percentage (BIKES_AVAILABLE row) (DOCKS_AVAILABLE row)
       = Ok station_average /\
     number_add_of p (BIKES_AVAILABLE row) (DOCKS_AVAILABLE row)
       = Ok number_add /\
     station_average < p /\ IS_RETURNING row = true /\
     0 < DOCKS_AVAILABLE row /\
     row' = moved number_add row).

(** Rows that differ at most in how their places split between bikes and
    docks. *)
Definition same_station (row row' : Station) : Prop :=
  ID row' = ID row /\ NAME row' = NAME row /\
  LATITUDE row' = LATITUDE row /\ LONGITUDE row' = LONGITUDE row /\
  CAPACITY row' = CAPACITY row /\
  IS_RENTING row' = IS_RENTING row /\ IS_RETURNING row' = IS_RETURNING row /\
  BIKES_AVAILABLE row' + DOCKS_AVAILABLE row'
    = BIKES_AVAILABLE row + DOCKS_AVAILABLE row.

(** The three operations that write. *)
Inductive mutation : Type :=
| Rent_bike (station_id : Z)
| Return_bike (station_id : Z)
| Balance_all_bikes.

(** The repository after the call. *)
Definition mutate (op : mutation) (stations : SystemData) : SystemData :=
  match op with
  | Rent_bike station_id => snd (rent_bike station_id stations)
  | Return_bike station_id => snd (return_bike station_id stations)
  | Balance_all_bikes => snd (balance_all_bikes stations)
  end.

Inductive operation : Type :=
| Get_station_info (station_id : Z)
| Get_total (index : IntColumn)
| Get_station_with_max_bikes
| Get_stations_with_n_docks (n : Z)
| Get_direction (start_id end_id : Z)
| Mutation (op : mutation).

(** The repository after the call, whatever was returned or raised. *)
Definition after (atan2 : float -> float -> float) (op : operation)
  (stations : SystemData) : SystemData :=
  match op with
  | Get_station_info station_id => snd (get_station_info station_id stations)
  | Get_total index => snd (get_total index stations)
  | Get_station_with_max_bikes => snd (get_station_with_max_bikes stations)
  | Get_stations_with_n_docks n => snd (get_stations_with_n_docks n stations)
  | Get_direction start_id end_id =>
      snd (get_direction atan2 start_id end_id stations)
  | Mutation op => mutate op stations
  end.

Definition is_query (op : operation) : Prop :=
  match op with
  | Mutation _ => False
  | _ => True
  end.

(** The sector of the bucket table that the specification gives to
    NORTHWEST: degrees from -67.5 up to, not including, -22.5. *)
Definition in_northwest_sector (degree : float) : bool :=
  PyFloat.geb degree (SFopp (PyFloat.literal 675 10))
  && PyFloat.ltb degree (SFopp (PyFloat.literal 225 10)).

(** ** Further vocabulary *)

(** What [get_station_info] appends for one row. *)
Definition station_info_of (station_id : Z) (row : Station) : list pyobj :=
  if ID row =? station_id
  then [PyStr (NAME row); PyInt (BIKES_AVAILABLE row);
        PyInt (DOCKS_AVAILABLE row)]
  else [].

(** No count of the repository is negative. *)
Definition counts_nonnegative (stations : SystemData) : Prop :=
  Forall (fun row => 0 <= BIKES_AVAILABLE row /\ 0 <= DOCKS_AVAILABLE row)
         stations.

(** The chain of comparisons of [direction_of_degree] sorted by degree: the
    label, or [None], of every degree from the smallest to the largest. *)
Definition degree_table (degree : float) : option string :=
  let c22 := PyFloat.literal 225 10 in
  let c67 := PyFloat.literal 675 10 in
  let c112 := PyFloat.literal 1125 10 in
  let c157 := PyFloat.literal 1575 10 in
  let c0 := PyFloat.literal 0 1 in
  let c180 := PyFloat.literal 180 1 in
  match degree with
  | S754_nan => None
  | _ =>
      if PyFloat.leb degree (SFopp c180) then None
      else if PyFloat.ltb degree (SFopp c157) then Some "EAST"%string
      else if PyFloat.leb degree (SFopp c112) then Some "NORTHEAST"%string
      else if PyFloat.ltb degree (SFopp c67) then Some "NORTH"%string
      else if PyFloat.ltb degree (SFopp c22) then None
      else if PyFloat.leb degree (SFopp c22) then Some "NORTHWEST"%string
      else if PyFloat.ltb degree c0 then Some "WEST"%string
      else if PyFloat.leb degree c0 then Some "NORTHWEST"%string
      else if PyFloat.ltb degree c22 then Some "WEST"%string
      else if PyFloat.leb degree c67 then Some "SOUTHWEST"%string
      else if PyFloat.ltb degree c112 then Some "SOUTH"%string
      else if PyFloat.leb degree c157 then Some "SOUTHEAST"%string
      else if PyFloat.ltb degree c180 then Some "EAST"%string
      else Some "NORTHWEST"%string
  end.

(** The degrees for which no branch of the chain is taken: a NaN, -180 and
    below, and the NORTHWEST sector. *)
Definition no_label (degree : float) : bool :=
  match degree with
  | S754_nan => true
  | _ =>
      PyFloat.leb degree (SFopp (PyFloat.literal 180 1))
      || in_northwest_sector degree
  end.

(** The degrees the last branch of the chain catches: -22.5, 0, and 180 and
    above. *)
Definition caught_by_last_branch (degree : float) : bool :=
  PyFloat.eqb degree (SFopp (PyFloat.literal 225 10))
  || PyFloat.eqb degree (PyFloat.literal 0 1)
  || PyFloat.geb degree (PyFloat.literal 180 1).

(** ** Text: [is_number], [csv_to_list] and [clean_data]

    A [str] is a [string]: its characters are the code points below 256,
    and [isspace] and [isnumeric] are the classes of [str.isspace] and
    [str.isnumeric] on that range. *)

From Stdlib Require Import Ascii.

(** The characters [str.strip()] removes: tab to carriage return, the four
    separators U+001C to U+001F, the space, U+0085 and U+00A0. *)
Definition isspace (c : ascii) : bool :=
  let n := Z.of_N (N_of_ascii c) in
  ((9 <=? n) && (n <=? 13)) || ((28 <=? n) && (n <=? 32))
  || (n =? 133) || (n =? 160).

(** The characters [str.isnumeric()] accepts: the digits, the superscripts
    two, three and one, and the fractions a quarter, a half and three
    quarters. *)
Definition isnumeric (c : ascii) : bool :=
  let n := Z.of_N (N_of_ascii c) in
  ((48 <=? n) && (n <=? 57)) || (n =? 178) || (n =? 179) || (n =? 185)
  || ((188 <=? n) && (n <=? 190)).

(** The characters of ['+-']. *)
Definition is_sign (c : ascii) : bool :=
  Ascii.eqb c "+" || Ascii.eqb c "-".

(** [s.lstrip(chars)] and [s.rstrip(chars)], for the set [chars] of the
    characters that [strip_it] accepts. *)
Fixpoint lstrip (strip_it : ascii -> bool) (s : string) : string :=
  match s with
  | EmptyString => EmptyString
  | String c s' => if strip_it c then lstrip strip_it s' else s
  end.

Fixpoint rstrip (strip_it : ascii -> bool) (s : string) : string :=
  match s with
  | EmptyString => EmptyString
  | String c s' =>
      match rstrip strip_it s' with
      | EmptyString => if strip_it c then EmptyString else String c EmptyString
      | kept => String c kept
      end
  end.

(** [s.strip()] *)
Definition strip (s : string) : string := lstrip isspace (rstrip isspace s).

(** [s.replace(c, '', 1)]: [s] without the first [c]. *)
Fixpoint remove_first (c : ascii) (s : string) : string :=
  match s with
  | EmptyString => EmptyString
  | String c' s' => if Ascii.eqb c' c then s' else String c' (remove_first c s')
  end.

Fixpoint all_chars (p : ascii -> bool) (s : string) : bool :=
  match s with
  | EmptyString => true
  | String c s' => p c && all_chars p s'
  end.

(** [s.isnumeric()]: at least one character, and all of them numeric. *)
Definition str_isnumeric (s : string) : bool :=
  match s with
  | EmptyString => false
  | _ => all_chars isnumeric s
  end.

(** [is_number(value)] *)
Definition is_number (value : string) : bool :=
  str_isnumeric (remove_first "." (lstrip is_sign (strip value))).

(** The strings [is_number] accepts, once the white space at the two ends
    is gone: any number of signs, then numeric characters with at most one
    point before, among or after them; at least one numeric character. *)
Definition number_shaped (s : string) : Prop :=
  exists signs whole fraction,
    all_chars is_sign signs = true /\
    all_chars isnumeric whole = true /\
    all_chars isnumeric fraction = true /\
    String.append whole fraction <> EmptyString /\
    (s = String.append signs (String.append whole fraction) \/
     s = String.append signs (String.append whole (String "." fraction))).

(** [c in s] *)
Fixpoint contains (c : ascii) (s : string) : bool :=
  match s with
  | EmptyString => false
  | String c' s' => Ascii.eqb c' c || contains c s'
  end.

(** [s.split(sep)] for a separator of one character. *)
Fixpoint split (sep : ascii) (s : string) : list string :=
  match s with
  | EmptyString => [EmptyString]
  | String c s' =>
      if Ascii.eqb c sep then EmptyString :: split sep s'
      else
        match split sep s' with
        | first :: others => String c first :: others
        | [] => [String c EmptyString]
        end
  end.

(** [sep.join(cells)] *)
Fixpoint join (sep : ascii) (cells : list string) : string :=
  match cells with
  | [] => EmptyString
  | [last] => last
  | first :: others => String.append first (String sep (join sep others))
  end.

(** An open text file: the lines it has still to give, each with the end
    of line it has in the file. *)
Abbreviation TextIO := (list string).

(** [csv_file.readline()]: the next line, or [''] at the end of the file. *)
Definition readline (csv_file : TextIO) : string * TextIO :=
  match csv_file with
  | [] => (EmptyString, [])
  | line :: rest => (line, rest)
  end.

(** [csv_to_list(csv_file)]: the list it returns, and the file after the
    call. *)
Definition csv_to_list (csv_file : TextIO) : list (list string) * TextIO :=
  let (_, csv_file) := readline csv_file in
  (fold_left (fun data line => data ++ [split "," (strip line)]) csv_file [],
   []).

(** A value in the data [clean_data] works on: a string before it is
    cleaned, and afterwards an [int], a [float], a [bool], [None] or a
    string. *)
Inductive pyvalue : Type :=
| VStr (s : string)
| VInt (n : Z)
| VFloat (f : float)
| VBool (b : bool)
| VNone.

(** What [clean_data] may raise: an exception of a builtin, or the
    [AttributeError] of [value.strip()] on a value that is not a string. *)
Inductive cleaning_exn : Type :=
| Builtin (e : exn)
| AttributeError.

Inductive outcome (A : Type) : Type :=
| Returns (a : A)
| Raises (e : cleaning_exn).

Arguments Returns {A} a.
Arguments Raises {A} e.

(** [v == literal] for a string literal: [False] when [v] is not a string. *)
Definition eq_str (v : pyvalue) (literal : string) : bool :=
  match v with
  | VStr s => String.eqb s literal
  | _ => false
  end.

Section CleanData.

(** The builtins [int] and [float] on a string, which may raise
    [ValueError]: they are not part of the repository. *)
Variable py_int : string -> result Z.
Variable py_float : string -> result float.

Definition of_builtin {A : Type} (r : result A) (k : A -> pyvalue)
  : outcome pyvalue :=
  match r with
  | Ok a => Returns (k a)
  | Raise e => Raises (Builtin e)
  end.

(** The chain of tests of [clean_data] on one item [data[i][n]], which it
    reads again in every test and does not write before the end: the value
    the item is given, or the exception. *)
Definition clean_value (v : pyvalue) : outcome pyvalue :=
  if eq_str v "True" then Returns (VBool true)
  else if eq_str v "False" then Returns (VBool false)
  else if eq_str v "" then Returns VNone
  else
    match v with
    | VStr s =>
        if is_number s then
          if contains "." s then of_builtin (py_float s) VFloat
          else of_builtin (py_int s) VInt
        else Returns (VStr s)
    | _ => Raises AttributeError
    end.

(** The functions on the data, by reference. *)
Definition Cleaning (A : Type) : Type :=
  list (list pyvalue) -> outcome A * list (list pyvalue).

Definition cret {A : Type} (a : A) : Cleaning A :=
  fun data => (Returns a, data).

Definition cbind {A B : Type} (m : Cleaning A) (k : A -> Cleaning B)
  : Cleaning B :=
  fun data =>
    match m data with
    | (Returns a, data') => k a data'
    | (Raises e, data') => (Raises e, data')
    end.

(** [len(data)] and [len(data[i])] *)
Definition len_data : Cleaning nat :=
  fun data => (Returns (length data), data).

Definition len_row (i : nat) : Cleaning nat :=
  fun data =>
    match data !! i with
    | Some row => (Returns (length row), data)
    | None => (Raises (Builtin IndexError), data)
    end.

(** [data[i][n]] *)
Definition item (i n : nat) : Cleaning pyvalue :=
  fun data =>
    match data !! i with
    | Some row =>
        match row !! n with
        | Some v => (Returns v, data)
        | None => (Raises (Builtin IndexError), data)
        end
    | None => (Raises (Builtin IndexError), data)
    end.

(** [data[i][n] = v] *)
Definition set_item (i n : nat) (v : pyvalue) : Cleaning unit :=
  fun data =>
    match data !! i with
    | Some row =>
        if decide (n < length row)%nat
        then (Returns tt, <[i := <[n := v]> row]> data)
        else (Raises (Builtin IndexError), data)
    | None => (Raises (Builtin IndexError), data)
    end.

(** [for k in range(k, k + count): body k] *)
Fixpoint cfor (body : nat -> Cleaning unit) (k count : nat) : Cleaning unit :=
  match count with
  | O => cret tt
  | S count' => cbind (body k) (fun _ => cfor body (S k) count')
  end.

(** The body of the inner loop: the item is read, tested and written. *)
Definition clean_item (i n : nat) : Cleaning unit :=
  cbind (item i n) (fun v =>
  match clean_value v with
  | Returns v' => set_item i n v'
  | Raises e => fun data => (Raises e, data)
  end).

(** [clean_data(data)] *)
Definition clean_data : Cleaning unit :=
  cbind len_data (fun rows =>
  cfor (fun i =>
          cbind (len_row i) (fun columns => cfor (clean_item i) 0 columns))
       0 rows).

(** The inner loop and the outer loop as sweeps: the items of a row, then
    the rows, are cleaned in order up to the first exception, and what
    comes after it is left as it was. *)
Fixpoint clean_items (row : list pyvalue) : outcome unit * list pyvalue :=
  match row with
  | [] => (Returns tt, [])
  | v :: rest =>
      match clean_value v with
      | Returns v' =>
          let (res, rest') := clean_items rest in (res, v' :: rest')
      | Raises e => (Raises e, v :: rest)
      end
  end.

Fixpoint clean_rows (data : list (list pyvalue))
  : outcome unit * list (list pyvalue) :=
  match data with
  | [] => (Returns tt, [])
  | row :: rest =>
      match clean_items row with
      | (Returns _, row') =>
          let (res, rest') := clean_rows rest in (res, row' :: rest')
      | (Raises e, row') => (Raises e, row' :: rest)
      end
  end.

(** Item [v'] is item [v] cleaned. *)
Definition cleaned (v v' : pyvalue) : Prop := clean_value v = Returns v'.

End CleanData.

(** The value is a string; every item of the data is one. *)
Definition is_str (v : pyvalue) : bool :=
  match v with
  | VStr _ => true
  | _ => false
  end.

Definition all_strings (data : list (list pyvalue)) : bool :=
  forallb (forallb is_str) data.

(** The data [csv_to_list] returns, as [clean_data] takes it. *)
Definition strings_of (rows : list (list string)) : list (list pyvalue) :=
  (fun row : list string => VStr <$> row) <$> rows.

(** ** Data for the examples of the further properties *)

(** A station without places next to an ordinary one. *)
Definition NO_PLACES_STATIONS : SystemData :=
  [ mkStation 1 "Closed" (PyFloat.literal 43 1) (SFopp (PyFloat.literal 79 1))
      0 0 0 false false;
    mkStation 2 "Open" (PyFloat.literal 44 1) (SFopp (PyFloat.literal 80 1))
      10 5 5 true true ].

(** A stand-in for [int] that reads the strings of decimal digits and
    rejects every other string, and one for [float] that rejects every
    string. *)
Fixpoint digits_value (s : string) (value : Z) : option Z :=
  match s with
  | EmptyString => Some value
  | String c s' =>
      let n := Z.of_N (N_of_ascii c) in
      if (48 <=? n) && (n <=? 57) then digits_value s' (10 * value + (n - 48))
      else None
  end.

Definition digits_int (s : string) : result Z :=
  match s with
  | EmptyString => Raise ValueError
  | _ =>
      match digits_value s 0 with
      | Some n => Ok n
      | None => Raise ValueError
      end
  end.

Definition no_float (s : string) : result float := Raise ValueError.

(** ** The floats on known values *)

(** [1/3] is [0x1.5555555555555p-2], [(2**60 + 1)/3] is
    [0x1.5555555555555p+58], [0/-5] is [-0.0], [10**400/1] overflows and
    [1/0] is a division by zero. *)
Example int_true_divide_values :
  PyFloat.int_true_divide 1 3 = Ok (S754_finite false 0x15555555555555 (-54)) /\
  PyFloat.int_true_divide (2 ^ 60 + 1) 3
    = Ok (S754_finite false 0x15555555555555 6) /\
  PyFloat.int_true_divide 0 (-5) = Ok (S754_zero true) /\
  PyFloat.int_true_divide (10 ^ 400) 1 = Raise OverflowError /\
  PyFloat.int_true_divide 1 0 = Raise ZeroDivisionError.
Proof. repeat split; vm_compute; reflexivity. Qed.

(** [0.00001] is [0x1.4f8b588e368f1p-17] and [22.5] is [0x1.68p+4]. *)
Example literal_values :
  PyFloat.literal 1 100000 = S754_finite false 0x14f8b588e368f1 (-69) /\
  PyFloat.literal 225 10 = S754_finite false 0x16800000000000 (-48).
Proof. split; vm_compute; reflexivity. Qed.

(** [round] goes to the even neighbour on a tie: [round(0.5) == 0],
    [round(1.5) == 2], [round(2.5) == 2], [round(-3.5) == -4],
    [round(3.26) == 3]. *)
Example round_values :
  PyFloat.round (PyFloat.literal 5 10) = Ok 0 /\
  PyFloat.round (PyFloat.literal 15 10) = Ok 2 /\
  PyFloat.round (PyFloat.literal 25 10) = Ok 2 /\
  PyFloat.round (SFopp (PyFloat.literal 35 10)) = Ok (-4) /\
  PyFloat.round (PyFloat.literal 326 100) = Ok 3.
Proof. repeat split; vm_compute; reflexivity. Qed.

(** ** Running the monad *)

Section MonadLaws.

Context {A B : Type}.

Lemma bind_Ok (m : Py A) (k : A -> Py B) stations a stations' :
  m stations = (Ok a, stations') -> bind m k stations = k a stations'.
Proof. intros H. unfold bind. now rewrite H. Qed.

Lemma cell_Some (i : nat) (field : Station -> A) stations row :
  stations !! i = Some row ->
  cell i field stations = (Ok (field row), stations).
Proof. intros H. unfold cell. now rewrite H. Qed.

End MonadLaws.

Lemma store_Some (i : nat) (upd : Station -> Station) stations row :
  stations !! i = Some row ->
  store i upd stations = (Ok tt, <[i := upd row]> stations).
Proof. intros H. unfold store. now rewrite H. Qed.

Lemma lookup_insert_same (stations : SystemData) i row row' :
  stations !! i = Some row -> <[i := row']> stations !! i = Some row'.
Proof. intros H. apply list_lookup_insert_eq. eapply lookup_lt_Some, H. Qed.

(** Runs a loop body on a repository whose row [i] is known. *)
Ltac row_known H := first [ exact H | eapply lookup_insert_same, H ].

Ltac run_body H :=
  repeat first
    [ erewrite (bind_Ok (cell _ _)) by (apply cell_Some; row_known H)
    | erewrite (bind_Ok (store _ _)) by (apply store_Some; row_known H)
    | rewrite list_insert_insert_eq
    | progress cbn beta iota ].

Lemma for_from_sweep {L : Type} (body : nat -> L -> Py L) step :
  row_local body step ->
  forall (rows before : list Station) (acc : L),
    for_from body (length before) (length rows) acc (before ++ rows) =
      let (res, rows') := sweep step rows acc in (res, before ++ rows').
Proof.
  intros Hbody rows. induction rows as [|row rows IH]; intros before acc.
  - reflexivity.
  - cbn [length for_from sweep]. unfold bind at 1.
    rewrite (Hbody _ acc _ row) by apply list_lookup_middle, eq_refl.
    destruct (step acc row) as [[acc' row']|e]; [|reflexivity].
    replace (<[length before := row']> (before ++ row :: rows))
      with ((before ++ [row']) ++ rows).
    + replace (S (length before)) with (length (before ++ [row']))
        by (rewrite length_app; cbn; lia).
      rewrite IH. destruct (sweep step rows acc') as [res rows'].
      now rewrite <- app_assoc.
    + rewrite <- app_assoc, insert_app_r_alt, Nat.sub_diag by lia.
      reflexivity.
Qed.

(** A row-local loop over the whole repository is the sweep of its step. *)
Lemma for_range_sweep {L : Type} (body : nat -> L -> Py L) step init stations :
  row_local body step ->
  for_range body init stations = sweep step stations init.
Proof.
  intros Hbody. unfold for_range, len, bind.
  pose proof (for_from_sweep body step Hbody stations [] init) as H.
  cbn [length app] in H. rewrite H.
  now destruct (sweep step stations init).
Qed.

Lemma sweep_reading {L : Type} (g : L -> Station -> L) rows acc :
  sweep (reading g) rows acc = (Ok (fold_left g rows acc), rows).
Proof.
  revert acc. induction rows as [|row rows IH]; intros acc; [reflexivity|].
  cbn [sweep reading fold_left]. now rewrite IH.
Qed.

Lemma for_range_reading {L : Type} (body : nat -> L -> Py L) g init stations :
  row_local body (reading g) ->
  for_range body init stations = (Ok (fold_left g stations init), stations).
Proof.
  intros Hbody. rewrite (for_range_sweep _ _ _ _ Hbody). apply sweep_reading.
Qed.

(** Closes the case of a loop body that ends without a write. *)
Ltac no_write H := unfold ret; now rewrite (list_insert_id _ _ _ H).

(** ** The loop bodies act on one row *)

Lemma rent_bike_body_local station_id :
  row_local (rent_bike_body station_id) (rent_step station_id).
Proof.
  intros i rental stations row H.
  unfold rent_bike_body, rent_step, can_rent. run_body H.
  destruct (ID row =? station_id); cbn [andb]; run_body H.
  - destruct (IS_RENTING row && (0 <? BIKES_AVAILABLE row)); run_body H.
    + reflexivity.
    + unfold ret. now rewrite list_insert_id.
  - unfold ret. now rewrite list_insert_id.
Qed.

Lemma return_bike_body_local station_id :
  row_local (return_bike_body station_id) (return_step station_id).
Proof.
  intros i rental stations row H.
  unfold return_bike_body, return_step, can_return. run_body H.
  destruct (ID row =? station_id); cbn [andb]; run_body H.
  - destruct (IS_RETURNING row && (0 <? DOCKS_AVAILABLE row)); run_body H.
    + reflexivity.
    + unfold ret. now rewrite list_insert_id.
  - unfold ret. now rewrite list_insert_id.
Qed.

Lemma get_station_info_body_local station_id :
  row_local (get_station_info_body station_id)
    (reading (fun acc row =>
       if ID row =? station_id
       then acc ++ [PyStr (NAME row); PyInt (BIKES_AVAILABLE row);
                    PyInt (DOCKS_AVAILABLE row)]
       else acc)).
Proof.
  intros i acc stations row H. unfold get_station_info_body, reading.
  run_body H. destruct (ID row =? station_id); run_body H; no_write H.
Qed.

Lemma get_total_body_local index :
  row_local (get_total_body index)
    (reading (fun total row => total + column index row)).
Proof.
  intros i acc stations row H. unfold get_total_body, reading.
  run_body H. no_write H.
Qed.

Lemma max_bikes_body_local :
  row_local max_bikes_body
    (reading (fun acc row => acc ++ [BIKES_AVAILABLE row])).
Proof.
  intros i acc stations row H. unfold max_bikes_body, reading.
  run_body H. no_write H.
Qed.

Lemma n_docks_body_local n :
  row_local (n_docks_body n)
    (reading (fun acc row =>
       if n <=? DOCKS_AVAILABLE row then acc ++ [ID row] else acc)).
Proof.
  intros i acc stations row H. unfold n_docks_body, reading.
  run_body H. destruct (n <=? DOCKS_AVAILABLE row); run_body H; no_write H.
Qed.

Lemma get_direction_body_local start_id end_id :
  row_local (get_direction_body start_id end_id)
    (reading (locate start_id end_id)).
Proof.
  intros i [[[las los] lae] loe] stations row H.
  unfold get_direction_body, reading, locate. run_body H.
  destruct (ID row =? start_id); run_body H; [no_write H|].
  destruct (ID row =? end_id); run_body H; no_write H.
Qed.

Lemma station_figures_run p i stations row :
  stations !! i = Some row ->
  station_figures p i stations = (figures p row, stations).
Proof.
  intros H. unfold station_figures, figures. run_body H.
  unfold bind, lift, ret, rbind.
  destruct (percentage _ _); [|reflexivity].
  destruct (number_remove_of _ _ _); [|reflexivity].
  now destruct (number_add_of _ _ _).
Qed.

Lemma totals_body_local : row_local totals_body totals_step.
Proof.
  intros i [spaces bikes] stations row H.
  unfold totals_body, totals_step, reading. run_body H. no_write H.
Qed.

Lemma pools_body_local p : row_local (pools_body p) (pools_step p).
Proof.
  intros i [excess deficit] stations row H. unfold pools_body, pools_step.
  unfold bind at 1. rewrite (station_figures_run _ _ _ _ H).
  destruct (figures p row) as [[[avg nr] na]|e]; [|reflexivity].
  cbn [rbind]. destruct (p <? avg); [no_write H|].
  destruct (avg <? p); no_write H.
Qed.

Lemma move_body_local p : row_local (move_body p) (move_step p).
Proof.
  intros i [excess deficit] stations row H. unfold move_body, move_step.
  unfold bind at 1. rewrite (station_figures_run _ _ _ _ H).
  destruct (figures p row) as [[[avg nr] na]|e]; [|reflexivity].
  cbn [rbind]. run_body H.
  destruct ((p <? avg) && IS_RENTING row && (0 <? excess)); run_body H.
  { unfold ret, moved. repeat f_equal; cbn; lia. }
  destruct ((avg <? p) && IS_RETURNING row && (0 <? DOCKS_AVAILABLE row)
            && (0 <? deficit)); run_body H.
  - reflexivity.
  - no_write H.
Qed.

(** ** Rent and return as sweeps *)

Lemma rent_sweep station_id rows rental :
  sweep (rent_step station_id) rows rental =
    (Ok (rental || existsb (can_rent station_id) rows),
     (fun row => if can_rent station_id row then rented row else row) <$> rows).
Proof.
  revert rental. induction rows as [|row rows IH]; intros rental.
  - cbn. now rewrite orb_false_r.
  - cbn [sweep rent_step existsb fmap list_fmap].
    destruct (can_rent station_id row); rewrite IH; cbn.
    + now rewrite orb_true_r.
    + reflexivity.
Qed.

Lemma return_sweep station_id rows returning_bike :
  sweep (return_step station_id) rows returning_bike =
    (Ok (returning_bike || existsb (can_return station_id) rows),
     (fun row => if can_return station_id row then returned row else row)
       <$> rows).
Proof.
  revert returning_bike.
  induction rows as [|row rows IH]; intros returning_bike.
  - cbn. now rewrite orb_false_r.
  - cbn [sweep return_step existsb fmap list_fmap].
    destruct (can_return station_id row); rewrite IH; cbn.
    + now rewrite orb_true_r.
    + reflexivity.
Qed.

(** [rent_bike] and [return_bike] never raise: they are these list functions. *)
Lemma rent_bike_run station_id stations :
  rent_bike station_id stations =
    (Ok (existsb (can_rent station_id) stations),
     (fun row => if can_rent station_id row then rented row else row)
       <$> stations).
Proof.
  unfold rent_bike.
  rewrite (for_range_sweep _ _ _ _ (rent_bike_body_local station_id)).
  apply rent_sweep.
Qed.

Lemma return_bike_run station_id stations :
  return_bike station_id stations =
    (Ok (existsb (can_return station_id) stations),
     (fun row => if can_return station_id row then returned row else row)
       <$> stations).
Proof.
  unfold return_bike.
  rewrite (for_range_sweep _ _ _ _ (return_bike_body_local station_id)).
  apply return_sweep.
Qed.

Section OneRow.

Variables (stations : SystemData) (i : nat) (row : Station).
Hypothesis Hrow : stations !! i = Some row.

Lemma fmap_one_row (f : Station -> Station) :
  (forall j row', stations !! j = Some row' -> j <> i -> f row' = row') ->
  f <$> stations = <[i := f row]> stations.
Proof.
  intros Hother. apply list_eq. intros j.
  rewrite list_lookup_fmap. destruct (decide (j = i)) as [->|Hne].
  - rewrite Hrow. cbn. symmetry. now apply lookup_insert_same with row.
  - rewrite list_lookup_insert_ne by congruence.
    destruct (stations !! j) as [row'|] eqn:Hj; [|reflexivity].
    cbn. f_equal. now apply (Hother j).
Qed.

Lemma existsb_one_row (p : Station -> bool) :
  (forall j row', stations !! j = Some row' -> j <> i -> p row' = false) ->
  existsb p stations = p row.
Proof.
  intros Hother. destruct (p row) eqn:Hp.
  - apply existsb_exists. exists row. split; [|exact Hp].
    apply list_elem_of_In. eapply list_elem_of_lookup_2, Hrow.
  - apply not_true_is_false. intros Hex.
    apply existsb_exists in Hex as (row' & Hin & Hp').
    apply list_elem_of_In, list_elem_of_lookup_1 in Hin as [j Hj].
    destruct (decide (j = i)) as [->|Hne].
    + congruence.
    + rewrite (Hother j row' Hj Hne) in Hp'. discriminate.
Qed.

End OneRow.

Lemma fmap_no_row (f : Station -> Station) (stations : SystemData) :
  (forall row, row ∈ stations -> f row = row) -> f <$> stations = stations.
Proof.
  intros H. induction stations as [|row rows IH]; [reflexivity|].
  cbn. rewrite (H row) by apply list_elem_of_here.
  f_equal. apply IH. intros row' Hin. apply H. now apply list_elem_of_further.
Qed.

Lemma existsb_no_row (p : Station -> bool) (stations : SystemData) :
  (forall row, row ∈ stations -> p row = false) -> existsb p stations = false.
Proof.
  intros H. induction stations as [|row rows IH]; [reflexivity|].
  cbn. rewrite (H row) by apply list_elem_of_here.
  apply IH. intros row' Hin. apply H. now apply list_elem_of_further.
Qed.

Lemma can_rent_other station_id row :
  ID row <> station_id -> can_rent station_id row = false.
Proof. intros H. unfold can_rent. now apply Z.eqb_neq in H as ->. Qed.

Lemma can_return_other station_id row :
  ID row <> station_id -> can_return station_id row = false.
Proof. intros H. unfold can_return. now apply Z.eqb_neq in H as ->. Qed.

(** ** Rent and return *)

(** C4. In a repository where [station_id] is the id of exactly one row,
    [rent_bike] returns [True], takes one bike from that row and adds one
    dock to it (all other rows as they were) when the row is renting and has
    a bike; otherwise it returns [False] and the repository is as before. *)
Theorem rent_bike_correct (station_id : Z) (stations : SystemData) (i : nat)
  (row : Station) :
  unique_at station_id i row stations ->
  (IS_RENTING row = true /\ 0 < BIKES_AVAILABLE row ->
   rent_bike station_id stations =
     (Ok true,
      <[i := mkStation (ID row) (NAME row) (LATITUDE row) (LONGITUDE row)
               (CAPACITY row) (BIKES_AVAILABLE row - 1)
               (DOCKS_AVAILABLE row + 1) (IS_RENTING row) (IS_RETURNING row)]>
        stations)) /\
  (~ (IS_RENTING row = true /\ 0 < BIKES_AVAILABLE row) ->
   rent_bike station_id stations = (Ok false, stations)).
Proof.
  intros (Hrow & Hid & Huniq).
  assert (Hother : forall j row', stations !! j = Some row' -> j <> i ->
                                  can_rent station_id row' = false).
  { intros j row' Hj Hne. apply can_rent_other. intros Heq.
    apply Hne. eapply Huniq; eauto. }
  rewrite rent_bike_run, (existsb_one_row _ _ _ Hrow _ Hother).
  rewrite (fmap_one_row _ _ _ Hrow).
  2:{ intros j row' Hj Hne. now rewrite (Hother j row' Hj Hne). }
  assert (Hcan : can_rent station_id row =
                 IS_RENTING row && (0 <? BIKES_AVAILABLE row)).
  { unfold can_rent. now rewrite (proj2 (Z.eqb_eq _ _) Hid). }
  rewrite Hcan. split.
  - intros [Hr Hb]. apply Z.ltb_lt in Hb.
    replace (IS_RENTING row && (0 <? BIKES_AVAILABLE row)) with true
      by now rewrite Hr, Hb.
    reflexivity.
  - intros Hno.
    destruct (IS_RENTING row && (0 <? BIKES_AVAILABLE row)) eqn:E.
    + exfalso. apply Hno. apply andb_true_iff in E as [Hr Hb].
      split; [exact Hr | now apply Z.ltb_lt].
    + now rewrite list_insert_id.
Qed.

(** C5. In a repository where [station_id] is the id of exactly one row,
    [return_bike] returns [True], adds one bike to that row and takes one
    dock from it (all other rows as they were) when the row is returning and
    has a dock; otherwise it returns [False] and the repository is as
    before. *)
Theorem return_bike_correct (station_id : Z) (stations : SystemData) (i : nat)
  (row : Station) :
  unique_at station_id i row stations ->
  (IS_RETURNING row = true /\ 0 < DOCKS_AVAILABLE row ->
   return_bike station_id stations =
     (Ok true,
      <[i := mkStation (ID row) (NAME row) (LATITUDE row) (LONGITUDE row)
               (CAPACITY row) (BIKES_AVAILABLE row + 1)
               (DOCKS_AVAILABLE row - 1) (IS_RENTING row) (IS_RETURNING row)]>
        stations)) /\
  (~ (IS_RETURNING row = true /\ 0 < DOCKS_AVAILABLE row) ->
   return_bike station_id stations = (Ok false, stations)).
Proof.
  intros (Hrow & Hid & Huniq).
  assert (Hother : forall j row', stations !! j = Some row' -> j <> i ->
                                  can_return station_id row' = false).
  { intros j row' Hj Hne. apply can_return_other. intros Heq.
    apply Hne. eapply Huniq; eauto. }
  rewrite return_bike_run, (existsb_one_row _ _ _ Hrow _ Hother).
  rewrite (fmap_one_row _ _ _ Hrow).
  2:{ intros j row' Hj Hne. now rewrite (Hother j row' Hj Hne). }
  assert (Hcan : can_return station_id row =
                 IS_RETURNING row && (0 <? DOCKS_AVAILABLE row)).
  { unfold can_return. now rewrite (proj2 (Z.eqb_eq _ _) Hid). }
  rewrite Hcan. split.
  - intros [Hr Hd]. apply Z.ltb_lt in Hd.
    replace (IS_RETURNING row && (0 <? DOCKS_AVAILABLE row)) with true
      by now rewrite Hr, Hd.
    reflexivity.
  - intros Hno.
    destruct (IS_RETURNING row && (0 <? DOCKS_AVAILABLE row)) eqn:E.
    + exfalso. apply Hno. apply andb_true_iff in E as [Hr Hd].
      split; [exact Hr | now apply Z.ltb_lt].
    + now rewrite list_insert_id.
Qed.

(** C10. When no row has the id [station_id], [rent_bike] and [return_bike]
    both return [False], raise nothing and leave the repository as it was. *)
Theorem rent_return_absent_id (station_id : Z) (stations : SystemData) :
  (forall row, row ∈ stations -> ID row <> station_id) ->
  rent_bike station_id stations = (Ok false, stations) /\
  return_bike station_id stations = (Ok false, stations).
Proof.
  intros Habsent. split.
  - rewrite rent_bike_run, existsb_no_row, fmap_no_row; [reflexivity| |].
    + intros row Hin. now rewrite can_rent_other by auto.
    + intros row Hin. apply can_rent_other. auto.
  - rewrite return_bike_run, existsb_no_row, fmap_no_row; [reflexivity| |].
    + intros row Hin. now rewrite can_return_other by auto.
    + intros row Hin. apply can_return_other. auto.
Qed.

(** ** Stations with at least [n] docks *)

Lemma fold_n_docks (n : Z) (rows : list Station) (acc : StationList) :
  fold_left
    (fun acc row => if n <=? DOCKS_AVAILABLE row then acc ++ [ID row] else acc)
    rows acc
  = acc ++ (ID <$> filter (fun row => n <= DOCKS_AVAILABLE row) rows).
Proof.
  revert acc. induction rows as [|row rows IH]; intros acc.
  - cbn. now rewrite app_nil_r.
  - cbn [fold_left]. rewrite IH. destruct (Z.leb_spec n (DOCKS_AVAILABLE row)).
    + rewrite filter_cons_True by assumption. cbn. now rewrite <- app_assoc.
    + rewrite filter_cons_False by lia. reflexivity.
Qed.

Lemma filter_all {A : Type} (P : A -> Prop) `{forall x, Decision (P x)}
  (l : list A) :
  Forall P l -> filter P l = l.
Proof.
  induction 1 as [|x l Hx _ IH]; [reflexivity|].
  rewrite filter_cons_True by assumption. now rewrite IH.
Qed.

(** C8. For [n >= 0], [get_stations_with_n_docks] returns the ids of exactly
    the rows with at least [n] docks, in the order of the repository, and
    writes nothing; with [n = 0] and no negative dock count these are the
    ids of all the rows. *)
Theorem get_stations_with_n_docks_correct (n : Z) (stations : SystemData) :
  0 <= n ->
  get_stations_with_n_docks n stations =
    (Ok (ID <$> filter (fun row => n <= DOCKS_AVAILABLE row) stations),
     stations) /\
  (Forall (fun row => 0 <= DOCKS_AVAILABLE row) stations ->
   get_stations_with_n_docks 0 stations = (Ok (ID <$> stations), stations)).
Proof.
  intros _.
  assert (Hrun : forall m, get_stations_with_n_docks m stations =
    (Ok (ID <$> filter (fun row => m <= DOCKS_AVAILABLE row) stations),
     stations)).
  { intros m. unfold get_stations_with_n_docks.
    rewrite (for_range_reading _ _ _ _ (n_docks_body_local m)).
    now rewrite fold_n_docks. }
  split; [apply Hrun|].
  intros Hall. rewrite Hrun. now rewrite filter_all.
Qed.

(** ** The station with the most bikes *)

Lemma fold_max_bikes (rows : list Station) (acc : list Z) :
  fold_left (fun acc row => acc ++ [BIKES_AVAILABLE row]) rows acc
  = acc ++ (BIKES_AVAILABLE <$> rows).
Proof.
  revert acc. induction rows as [|row rows IH]; intros acc.
  - cbn. now rewrite app_nil_r.
  - cbn [fold_left]. rewrite IH. cbn. now rewrite <- app_assoc.
Qed.

Lemma fold_max_spec (l : list Z) (x : Z) :
  let m := fold_left (fun m y => if m <? y then y else m) l x in
  x <= m /\ Forall (fun y => y <= m) l /\ (m = x \/ m ∈ l).
Proof.
  revert x. induction l as [|y l IH]; intros x; cbn.
  - repeat split; [lia | constructor | now left].
  - specialize (IH (if x <? y then y else x)). cbn in IH.
    destruct IH as (Hge & Hall & Hin).
    destruct (Z.ltb_spec x y).
    + repeat split; [lia | constructor; [lia | exact Hall] |].
      right. destruct Hin as [->|Hin];
        [apply list_elem_of_here | now apply list_elem_of_further].
    + repeat split; [lia | constructor; [lia | exact Hall] |].
      destruct Hin as [->|Hin]; [now left | right].
      now apply list_elem_of_further.
Qed.

Lemma py_max_spec (l : list Z) :
  l <> [] ->
  exists m, py_max l = Ok m /\ m ∈ l /\ Forall (fun y => y <= m) l.
Proof.
  destruct l as [|x l]; [congruence|]. intros _.
  destruct (fold_max_spec l x) as (Hge & Hall & Hin).
  eexists. split; [reflexivity|]. split.
  - destruct Hin as [->|Hin];
      [apply list_elem_of_here | now apply list_elem_of_further].
  - now constructor.
Qed.

Lemma py_index_spec (v : Z) (l : list Z) :
  v ∈ l ->
  exists k, py_index v l = Ok k /\ l !! k = Some v /\
            forall j y, (j < k)%nat -> l !! j = Some y -> y <> v.
Proof.
  induction l as [|x l IH]; intros Hin.
  - now apply elem_of_nil in Hin.
  - cbn [py_index]. destruct (Z.eqb_spec x v) as [->|Hne].
    + exists O. repeat split. intros j y Hj. lia.
    + apply elem_of_cons in Hin as [->|Hin]; [congruence|].
      destruct (IH Hin) as (k & -> & Hk & Hfirst).
      exists (S k). repeat split; [exact Hk|].
      intros [|j] y Hj Hy; cbn in Hy.
      * congruence.
      * apply (Hfirst j); [lia | exact Hy].
Qed.

(** C7. On a repository that is not empty, [get_station_with_max_bikes]
    returns the id of a row [i] whose number of bikes is the largest of all
    rows, and every row before [i] has strictly fewer bikes: among the rows
    with the most bikes it is the earliest. Nothing is written. *)
Theorem get_station_with_max_bikes_correct (stations : SystemData) :
  stations <> [] ->
  exists (i : nat) (row : Station),
    stations !! i = Some row /\
    get_station_with_max_bikes stations = (Ok (ID row), stations) /\
    (forall j row', stations !! j = Some row' ->
                    BIKES_AVAILABLE row' <= BIKES_AVAILABLE row) /\
    (forall j row', (j < i)%nat -> stations !! j = Some row' ->
                    BIKES_AVAILABLE row' < BIKES_AVAILABLE row).
Proof.
  intros Hne.
  assert (Hne' : BIKES_AVAILABLE <$> stations <> []).
  { destruct stations; [congruence | discriminate]. }
  destruct (py_max_spec _ Hne') as (m & Hmax & Hin & Hall).
  destruct (py_index_spec m _ Hin) as (k & Hindex & Hk & Hfirst).
  rewrite list_lookup_fmap in Hk.
  destruct (stations !! k) as [row|] eqn:Hrow; [|discriminate].
  cbn in Hk. injection Hk as Hm.
  assert (Hle : forall j row', stations !! j = Some row' ->
                               BIKES_AVAILABLE row' <= m).
  { intros j row' Hj. rewrite Forall_forall in Hall. apply Hall.
    apply list_elem_of_fmap. exists row'. split; [reflexivity|].
    eapply list_elem_of_lookup_2, Hj. }
  exists k, row. split; [exact Hrow|]. split; [|split].
  - unfold get_station_with_max_bikes.
    erewrite bind_Ok
      by (rewrite (for_range_reading _ _ _ _ max_bikes_body_local);
          rewrite fold_max_bikes; reflexivity).
    cbn [app]. unfold lift. erewrite bind_Ok by (rewrite Hmax; reflexivity).
    erewrite bind_Ok by (rewrite Hindex; reflexivity).
    now apply cell_Some.
  - intros j row' Hj. rewrite Hm. eauto.
  - intros j row' Hlt Hj.
    assert (BIKES_AVAILABLE row' <> m).
    { apply (Hfirst j); [exact Hlt|]. rewrite list_lookup_fmap, Hj.
      reflexivity. }
    specialize (Hle j row' Hj). lia.
Qed.

(** ** Rebalancing as sweeps *)

Lemma sum_column_cons (field : Station -> Z) row rows :
  sum_column field (row :: rows) = field row + sum_column field rows.
Proof. reflexivity. Qed.

Lemma fold_total (field : Station -> Z) (rows : list Station) (total : Z) :
  fold_left (fun total row => total + field row) rows total
  = total + sum_column field rows.
Proof.
  revert total. induction rows as [|row rows IH]; intros total.
  - cbn. lia.
  - cbn [fold_left]. rewrite IH, sum_column_cons. lia.
Qed.

Lemma get_total_run (index : IntColumn) (stations : SystemData) :
  get_total index stations
    = (Ok (sum_column (column index) stations), stations).
Proof.
  unfold get_total.
  rewrite (for_range_reading _ _ _ _ (get_total_body_local index)).
  now rewrite fold_total.
Qed.

(** A sweep whose step hands every row back leaves the rows as they are,
    whether or not it raises. *)
Lemma sweep_unchanged {L : Type} (step : L -> Station -> result (L * Station)) :
  (forall acc row acc' row', step acc row = Ok (acc', row') -> row' = row) ->
  forall rows acc, snd (sweep step rows acc) = rows.
Proof.
  intros Hstep rows. induction rows as [|row rows IH]; intros acc.
  - reflexivity.
  - cbn [sweep]. destruct (step acc row) as [[acc' row']|e] eqn:E.
    + apply Hstep in E as ->. specialize (IH acc').
      destruct (sweep step rows acc'). cbn in *. now rewrite IH.
    + reflexivity.
Qed.

(** A sweep relates every row to the row it leaves in its place. *)
Lemma sweep_Forall2 {L : Type} (R : Station -> Station -> Prop)
  (step : L -> Station -> result (L * Station)) :
  (forall row, R row row) ->
  (forall acc row acc' row', step acc row = Ok (acc', row') -> R row row') ->
  forall rows acc, Forall2 R rows (snd (sweep step rows acc)).
Proof.
  intros Hrefl Hstep rows. induction rows as [|row rows IH]; intros acc.
  - constructor.
  - cbn [sweep]. destruct (step acc row) as [[acc' row']|e] eqn:E.
    + specialize (IH acc'). destruct (sweep step rows acc'). cbn in *.
      constructor; [eapply Hstep, E | exact IH].
    + cbn. clear - Hrefl. induction (row :: rows); constructor; auto.
Qed.

Lemma pools_step_row p pools row pools' row' :
  pools_step p pools row = Ok (pools', row') -> row' = row.
Proof.
  destruct pools as [excess deficit]. unfold pools_step.
  destruct (figures p row) as [[[avg nr] na]|e]; cbn; congruence.
Qed.

Lemma fold_totals (rows : list Station) (totals : Z * Z) :
  fold_left
    (fun totals row =>
       (fst totals + DOCKS_AVAILABLE row, snd totals + BIKES_AVAILABLE row))
    rows totals
  = (fst totals + sum_column DOCKS_AVAILABLE rows,
     snd totals + sum_column BIKES_AVAILABLE rows).
Proof.
  revert totals. induction rows as [|row rows IH]; intros [spaces bikes].
  - cbn. f_equal; lia.
  - cbn [fold_left]. rewrite IH, !sum_column_cons. cbn [fst snd]. f_equal; lia.
Qed.

(** [balance_all_bikes], loop by loop: the overall percentage of the column
    sums, the pools, and the sweep that moves the bikes. An exception of the
    first two loops leaves the repository as it was. *)
Lemma balance_all_bikes_run (stations : SystemData) :
  balance_all_bikes stations =
    match percentage (sum_column BIKES_AVAILABLE stations)
                     (sum_column DOCKS_AVAILABLE stations) with
    | Raise e => (Raise e, stations)
    | Ok p =>
        match fst (sweep (pools_step p) stations (0, 0)) with
        | Raise e => (Raise e, stations)
        | Ok pools =>
            match sweep (move_step p) stations pools with
            | (Ok _, stations') => (Ok tt, stations')
            | (Raise e, stations') => (Raise e, stations')
            end
        end
    end.
Proof.
  unfold balance_all_bikes.
  erewrite bind_Ok
    by (rewrite (for_range_sweep _ _ _ _ totals_body_local);
        apply sweep_reading).
  rewrite fold_totals. cbn [fst snd Z.add]. unfold bind at 1, lift at 1.
  destruct (percentage _ _) as [p|e]; [|reflexivity].
  unfold bind at 1. rewrite (for_range_sweep _ _ _ _ (pools_body_local p)).
  pose proof (sweep_unchanged _ (pools_step_row p) stations (0, 0)) as Hsame.
  destruct (sweep (pools_step p) stations (0, 0)) as [[pools|e] rows];
    cbn in Hsame; subst rows; [|reflexivity].
  cbn [fst]. unfold bind at 1.
  rewrite (for_range_sweep _ _ _ _ (move_body_local p)).
  now destruct (sweep (move_step p) stations pools) as [[pools'|e] rows].
Qed.

(** ** What rebalancing does to a row *)

Lemma same_station_refl row : same_station row row.
Proof. repeat split. Qed.

Lemma same_station_moved k row : same_station row (moved k row).
Proof. repeat split. cbn. lia. Qed.

Lemma figures_Ok p row station_average number_remove number_add :
  figures p row = Ok (station_average, number_remove, number_add) ->
  percentage (BIKES_AVAILABLE row) (DOCKS_AVAILABLE row) = Ok station_average /\
  number_remove_of p (BIKES_AVAILABLE row) (DOCKS_AVAILABLE row)
    = Ok number_remove /\
  number_add_of p (BIKES_AVAILABLE row) (DOCKS_AVAILABLE row) = Ok number_add.
Proof.
  unfold figures, rbind.
  destruct (percentage _ _); [|discriminate].
  destruct (number_remove_of _ _ _); [|discriminate].
  destruct (number_add_of _ _ _); [|discriminate].
  intros [= -> -> ->]. auto.
Qed.

Lemma move_step_adjusted p pools row pools' row' :
  move_step p pools row = Ok (pools', row') -> adjusted p row row'.
Proof.
  destruct pools as [excess deficit]. unfold move_step.
  destruct (figures p row) as [[[avg nr] na]|e] eqn:Hfig; [|discriminate].
  apply figures_Ok in Hfig as (Havg & Hnr & Hna). cbn [rbind].
  destruct ((p <? avg) && IS_RENTING row && (0 <? excess)) eqn:Hout.
  { intros [= <- <-]. right; left. exists avg, nr.
    apply andb_true_iff in Hout as [Hout _].
    apply andb_true_iff in Hout as [Hlt Hrenting].
    apply Z.ltb_lt in Hlt. auto 6. }
  destruct ((avg <? p) && IS_RETURNING row && (0 <? DOCKS_AVAILABLE row)
            && (0 <? deficit)) eqn:Hin.
  - intros [= <- <-]. right; right. exists avg, na.
    apply andb_true_iff in Hin as [Hin _].
    apply andb_true_iff in Hin as [Hin Hdocks].
    apply andb_true_iff in Hin as [Hlt Hreturning].
    apply Z.ltb_lt in Hlt. apply Z.ltb_lt in Hdocks. auto 7.
  - intros [= <- <-]. now left.
Qed.

Lemma adjusted_same_station p row row' :
  adjusted p row row' -> same_station row row'.
Proof.
  intros [->|[(avg & nr & _ & _ & _ & _ & ->)
             |(avg & na & _ & _ & _ & _ & _ & ->)]].
  - apply same_station_refl.
  - apply same_station_moved.
  - apply same_station_moved.
Qed.

Lemma Forall2_diag {A : Type} (R : A -> A -> Prop) (l : list A) :
  (forall x, R x x) -> Forall2 R l l.
Proof. intros H. induction l; constructor; auto. Qed.

(** After [balance_all_bikes], raised or not, either nothing was written or
    every row is [adjusted] for the overall percentage of the repository. *)
Lemma balance_all_bikes_adjusted (stations : SystemData) :
  snd (balance_all_bikes stations) = stations \/
  exists p,
    percentage (sum_column BIKES_AVAILABLE stations)
               (sum_column DOCKS_AVAILABLE stations) = Ok p /\
    Forall2 (adjusted p) stations (snd (balance_all_bikes stations)).
Proof.
  rewrite balance_all_bikes_run.
  destruct (percentage _ _) as [p|e]; [|now left].
  destruct (fst (sweep (pools_step p) stations (0, 0))) as [pools|e];
    [|now left].
  right. exists p. split; [reflexivity|].
  pose proof (sweep_Forall2 (adjusted p) (move_step p)
                (fun row => or_introl eq_refl)
                (move_step_adjusted p) stations pools) as H.
  now destruct (sweep (move_step p) stations pools) as [[pools'|e] rows].
Qed.

Lemma mutate_same_station (op : mutation) (stations : SystemData) :
  Forall2 same_station stations (mutate op stations).
Proof.
  destruct op as [station_id|station_id|]; cbn [mutate].
  - rewrite rent_bike_run. cbn [snd]. apply Forall2_fmap_r, Forall2_diag.
    unfold same_station.
    intros row. unfold compose. cbn beta. destruct (can_rent station_id row).
    + repeat split. unfold rented. cbn. lia.
    + apply same_station_refl.
  - rewrite return_bike_run. cbn [snd]. apply Forall2_fmap_r, Forall2_diag.
    unfold same_station.
    intros row. unfold compose. cbn beta.
    destruct (can_return station_id row).
    + repeat split. unfold returned. cbn. lia.
    + apply same_station_refl.
  - destruct (balance_all_bikes_adjusted stations) as [->|(p & _ & H)].
    + apply Forall2_diag, same_station_refl.
    + eapply Forall2_impl; [exact H|]. apply adjusted_same_station.
Qed.

Lemma sum_column_same_station (rows rows' : list Station) :
  Forall2 same_station rows rows' ->
  sum_column BIKES_AVAILABLE rows' + sum_column DOCKS_AVAILABLE rows'
  = sum_column BIKES_AVAILABLE rows + sum_column DOCKS_AVAILABLE rows.
Proof.
  induction 1 as [|row row' rows rows' Hrow _ IH]; [reflexivity|].
  rewrite !sum_column_cons.
  destruct Hrow as (_ & _ & _ & _ & _ & _ & _ & Hsum). lia.
Qed.

(** ** Queries write nothing *)

Lemma get_station_info_reads station_id stations :
  snd (get_station_info station_id stations) = stations.
Proof.
  unfold get_station_info.
  now rewrite (for_range_reading _ _ _ _ (get_station_info_body_local _)).
Qed.

Lemma get_station_with_max_bikes_reads stations :
  snd (get_station_with_max_bikes stations) = stations.
Proof.
  unfold get_station_with_max_bikes.
  erewrite bind_Ok
    by apply (for_range_reading _ _ _ _ max_bikes_body_local).
  unfold bind, lift, cell.
  destruct (py_max _) as [largest|e]; [|reflexivity].
  destruct (py_index _ _) as [maximum|e]; [|reflexivity].
  now destruct (stations !! maximum).
Qed.

Lemma get_stations_with_n_docks_reads n stations :
  snd (get_stations_with_n_docks n stations) = stations.
Proof.
  unfold get_stations_with_n_docks.
  now rewrite (for_range_reading _ _ _ _ (n_docks_body_local n)).
Qed.

Lemma get_direction_reads atan2 start_id end_id stations :
  snd (get_direction atan2 start_id end_id stations) = stations.
Proof.
  unfold get_direction.
  erewrite bind_Ok
    by apply (for_range_reading _ _ _ _ (get_direction_body_local _ _)).
  destruct (fold_left _ _ _) as [[[las los] lae] loe].
  unfold bind, local, lift, ret.
  destruct los; [|reflexivity]. destruct loe; [|reflexivity].
  destruct las; [|reflexivity]. now destruct lae.
Qed.

(** ** Every operation *)

Lemma after_same_station atan2 op stations :
  Forall2 same_station stations (after atan2 op stations).
Proof.
  destruct op; cbn [after]; try apply mutate_same_station.
  - rewrite get_station_info_reads. apply Forall2_diag, same_station_refl.
  - rewrite get_total_run. apply Forall2_diag, same_station_refl.
  - rewrite get_station_with_max_bikes_reads.
    apply Forall2_diag, same_station_refl.
  - rewrite get_stations_with_n_docks_reads.
    apply Forall2_diag, same_station_refl.
  - rewrite get_direction_reads. apply Forall2_diag, same_station_refl.
Qed.

(** ** Conservation *)

(** C3. After [rent_bike], [return_bike] or [balance_all_bikes], every row
    of the repository is still there and its bikes and docks add up to what
    they added up to before the call. *)
Theorem mutation_keeps_station_total (op : mutation) (stations : SystemData)
  (i : nat) (row : Station) :
  stations !! i = Some row ->
  exists row',
    mutate op stations !! i = Some row' /\
    BIKES_AVAILABLE row' + DOCKS_AVAILABLE row'
      = BIKES_AVAILABLE row + DOCKS_AVAILABLE row.
Proof.
  intros Hrow.
  destruct (Forall2_lookup_l _ _ _ _ _ (mutate_same_station op stations) Hrow)
    as (row' & Hrow' & Hsame).
  exists row'. split; [exact Hrow'|]. apply Hsame.
Qed.

(** C9. After any operation the repository has as many rows as before, in
    the same places, each with the id, name, latitude, longitude, capacity
    and the two flags it had; a query leaves the whole repository as it
    was, so only the bikes and docks of a row may differ, and only after
    [rent_bike], [return_bike] or [balance_all_bikes]. *)
Theorem operations_frame (atan2 : float -> float -> float) (op : operation)
  (stations : SystemData) :
  length (after atan2 op stations) = length stations /\
  (forall i row, stations !! i = Some row ->
     exists row',
       after atan2 op stations !! i = Some row' /\
       ID row' = ID row /\ NAME row' = NAME row /\
       LATITUDE row' = LATITUDE row /\ LONGITUDE row' = LONGITUDE row /\
       CAPACITY row' = CAPACITY row /\
       IS_RENTING row' = IS_RENTING row /\
       IS_RETURNING row' = IS_RETURNING row) /\
  (is_query op -> after atan2 op stations = stations).
Proof.
  pose proof (after_same_station atan2 op stations) as Hsame.
  split; [|split].
  - symmetry. eapply Forall2_length, Hsame.
  - intros i row Hrow.
    destruct (Forall2_lookup_l _ _ _ _ _ Hsame Hrow)
      as (row' & Hrow' & Hid & Hname & Hlat & Hlon & Hcap & Hr & Hret & _).
    exists row'. auto 10.
  - destruct op; cbn [is_query after]; intros Hq.
    + apply get_station_info_reads.
    + now rewrite get_total_run.
    + apply get_station_with_max_bikes_reads.
    + apply get_stations_with_n_docks_reads.
    + apply get_direction_reads.
    + destruct Hq.
Qed.

(** C1, as amended. [balance_all_bikes] leaves the sum over the repository
    of bikes plus docks as it was; and either it wrote nothing, or every row
    is [adjusted] for the overall percentage: kept, or changed by its own
    rounded number of bikes. The number of bikes alone is therefore not kept
    to within the number of stations (see the two examples that follow). *)
Theorem balance_all_bikes_conservation (stations : SystemData) :
  sum_column BIKES_AVAILABLE (snd (balance_all_bikes stations))
  + sum_column DOCKS_AVAILABLE (snd (balance_all_bikes stations))
  = sum_column BIKES_AVAILABLE stations + sum_column DOCKS_AVAILABLE stations /\
  (snd (balance_all_bikes stations) = stations \/
   exists p,
     percentage (sum_column BIKES_AVAILABLE stations)
                (sum_column DOCKS_AVAILABLE stations) = Ok p /\
     Forall2 (adjusted p) stations (snd (balance_all_bikes stations))).
Proof.
  split.
  - apply sum_column_same_station.
    apply (mutate_same_station Balance_all_bikes).
  - apply balance_all_bikes_adjusted.
Qed.

(** C1, as stated, fails: bikes and docks are not negative, no station has
    zero places, and the number of bikes goes from 10 to 15 in a repository
    of two stations. *)
Lemma balance_total_bikes_counterexample :
  Forall (fun row => 0 <= BIKES_AVAILABLE row /\ 0 <= DOCKS_AVAILABLE row /\
                     BIKES_AVAILABLE row + DOCKS_AVAILABLE row <> 0)
         UNEVEN_STATIONS /\
  fst (balance_all_bikes UNEVEN_STATIONS) = Ok tt /\
  sum_column BIKES_AVAILABLE UNEVEN_STATIONS = 10 /\
  sum_column BIKES_AVAILABLE (snd (balance_all_bikes UNEVEN_STATIONS)) = 15 /\
  ~ (Z.abs (sum_column BIKES_AVAILABLE (snd (balance_all_bikes UNEVEN_STATIONS))
            - sum_column BIKES_AVAILABLE UNEVEN_STATIONS)
     <= Z.of_nat (length UNEVEN_STATIONS)).
Proof.
  assert (Hafter :
    sum_column BIKES_AVAILABLE (snd (balance_all_bikes UNEVEN_STATIONS)) = 15)
    by (vm_compute; reflexivity).
  split; [|split; [|split; [|split]]].
  - repeat constructor; cbn; lia.
  - vm_compute. reflexivity.
  - reflexivity.
  - exact Hafter.
  - rewrite Hafter. cbn. lia.
Qed.

(** Four stations of a thousand places, all renting and returning: the
    overall percentage rounds to 0 and the six bikes of the last station
    are all taken out. *)
Example balance_drift_all_eligible :
  let stations :=
    [ mkStation 1 "A" (PyFloat.literal 43 1) (PyFloat.literal 79 1)
        1000 0 1000 true true;
      mkStation 2 "B" (PyFloat.literal 43 1) (PyFloat.literal 79 1)
        1000 0 1000 true true;
      mkStation 3 "C" (PyFloat.literal 43 1) (PyFloat.literal 79 1)
        1000 0 1000 true true;
      mkStation 4 "D" (PyFloat.literal 43 1) (PyFloat.literal 79 1)
        1000 6 994 true true ] in
  fst (balance_all_bikes stations) = Ok tt /\
  sum_column BIKES_AVAILABLE stations = 6 /\
  sum_column BIKES_AVAILABLE (snd (balance_all_bikes stations)) = 0.
Proof. vm_compute. auto. Qed.

(** The docstring example of [balance_all_bikes]. *)
Example balance_all_bikes_handout :
  balance_all_bikes HANDOUT_STATIONS =
    (Ok tt,
     [ mkStation 7000 "Ft. York / Capreol Crt."
         (PyFloat.literal 43639832 1000000)
         (SFopp (PyFloat.literal 79395954 1000000)) 31 17 14 true true;
       mkStation 7001 "Lower Jarvis St / The Esplanade"
         (PyFloat.literal 43647992 1000000)
         (SFopp (PyFloat.literal 79370907 1000000)) 15 8 7 true true ]).
Proof. vm_compute. reflexivity. Qed.

(** ** A balanced network *)

Lemma sweep_unchanged_on {L : Type}
  (step : L -> Station -> result (L * Station)) (rows : list Station) :
  Forall (fun row => forall acc acc' row',
            step acc row = Ok (acc', row') -> row' = row) rows ->
  forall acc, snd (sweep step rows acc) = rows.
Proof.
  induction 1 as [|row rows Hrow _ IH]; intros acc; [reflexivity|].
  cbn [sweep]. destruct (step acc row) as [[acc' row']|e] eqn:E.
  - apply Hrow in E as ->. specialize (IH acc').
    destruct (sweep step rows acc'). cbn in *. now rewrite IH.
  - reflexivity.
Qed.

Lemma sweep_idle {L : Type}
  (step : L -> Station -> result (L * Station)) (rows : list Station) :
  Forall (fun row => forall acc, step acc row = Ok (acc, row)) rows ->
  forall acc, sweep step rows acc = (Ok acc, rows).
Proof.
  induction 1 as [|row rows Hrow _ IH]; intros acc; [reflexivity|].
  cbn [sweep]. now rewrite Hrow, IH.
Qed.

(** A row whose percentage is the overall percentage is not written. *)
Lemma move_step_at_target p row pools pools' row' :
  percentage (BIKES_AVAILABLE row) (DOCKS_AVAILABLE row) = Ok p ->
  move_step p pools row = Ok (pools', row') -> row' = row.
Proof.
  intros Hp. destruct pools as [excess deficit]. unfold move_step, figures.
  rewrite Hp. cbn [rbind].
  destruct (number_remove_of _ _ _) as [nr|e]; [|discriminate].
  destruct (number_add_of _ _ _) as [na|e]; [|discriminate].
  cbn [rbind]. rewrite Z.ltb_irrefl. cbn [andb]. congruence.
Qed.

(** C2. When the rounded percentage of every row is the rounded overall
    percentage [p], [balance_all_bikes] leaves the repository as it was, so
    that a second call after the first finds the same repository and leaves
    it as it was too; and the call returns normally as soon as the numbers
    to remove and to add of every row can be computed. *)
Theorem balance_all_bikes_balanced (stations : SystemData) (p : Z) :
  percentage (sum_column BIKES_AVAILABLE stations)
             (sum_column DOCKS_AVAILABLE stations) = Ok p ->
  Forall (fun row =>
            percentage (BIKES_AVAILABLE row) (DOCKS_AVAILABLE row) = Ok p)
         stations ->
  snd (balance_all_bikes stations) = stations /\
  snd (balance_all_bikes (snd (balance_all_bikes stations))) = stations /\
  (Forall (fun row => exists fig, figures p row = Ok fig) stations ->
   balance_all_bikes stations = (Ok tt, stations)).
Proof.
  intros Hoverall Hrows.
  assert (Hkept : forall pools,
             snd (sweep (move_step p) stations pools) = stations).
  { apply sweep_unchanged_on. eapply Forall_impl; [exact Hrows|].
    intros row Hp acc acc' row'. now apply move_step_at_target. }
  assert (Hsame : snd (balance_all_bikes stations) = stations).
  { rewrite balance_all_bikes_run, Hoverall.
    destruct (fst (sweep (pools_step p) stations (0, 0))) as [pools|e];
      [|reflexivity].
    specialize (Hkept pools).
    now destruct (sweep (move_step p) stations pools) as [[pools'|e] rows]. }
  split; [exact Hsame|]. split; [now rewrite !Hsame|].
  intros Hfig. rewrite balance_all_bikes_run, Hoverall.
  rewrite (sweep_idle (pools_step p)).
  - cbn [fst]. rewrite (sweep_idle (move_step p)); [reflexivity|].
    rewrite Forall_forall in *. intros row Hin [excess deficit].
    destruct (Hfig row Hin) as [[[avg nr] na] Hrow]. unfold move_step.
    rewrite Hrow. cbn [rbind]. apply figures_Ok in Hrow as (Havg & _ & _).
    rewrite (Hrows row Hin) in Havg. injection Havg as <-.
    now rewrite Z.ltb_irrefl.
  - rewrite Forall_forall in *. intros row Hin [excess deficit].
    destruct (Hfig row Hin) as [[[avg nr] na] Hrow]. unfold pools_step.
    rewrite Hrow. cbn [rbind]. apply figures_Ok in Hrow as (Havg & _ & _).
    rewrite (Hrows row Hin) in Havg. injection Havg as <-.
    now rewrite Z.ltb_irrefl.
Qed.

(** ** The direction between two stations *)

(** [get_direction] once the loop has found both stations: the start
    longitude is moved by [0.00001] when the two longitudes are equal, and
    the label is the one of the degree of the arctangent. *)
Lemma get_direction_run atan2 start_id end_id stations
  latitude_start longitude_start latitude_end longitude_end :
  fold_left (locate start_id end_id) stations (None, None, None, None)
    = (Some latitude_start, Some longitude_start,
       Some latitude_end, Some longitude_end) ->
  get_direction atan2 start_id end_id stations =
    (Ok (direction_of_degree
           (degree_of atan2 latitude_start
              (if PyFloat.eqb longitude_start longitude_end
               then PyFloat.add longitude_start (PyFloat.literal 1 100000)
               else longitude_start)
              latitude_end longitude_end)),
     stations).
Proof.
  intros Hfound. unfold get_direction.
  erewrite bind_Ok
    by apply (for_range_reading _ _ _ _ (get_direction_body_local _ _)).
  rewrite Hfound. reflexivity.
Qed.

Lemma compare_cont_spec (a b : positive) :
  CompareSpec (a = b) (a < b)%positive (b < a)%positive
    (PosDef.Pos.compare_cont Eq a b).
Proof. exact (Pos.compare_spec a b). Qed.

(** Every degree of the NORTHWEST sector falls through the chain of
    comparisons: the last branch asks for [degree >= -22.5], which no degree
    of the sector satisfies, and Python returns [None]. *)
Lemma direction_of_degree_northwest_gap (degree : float) :
  in_northwest_sector degree = true -> direction_of_degree degree = None.
Proof.
  unfold in_northwest_sector, direction_of_degree.
  unfold PyFloat.geb, PyFloat.gtb, PyFloat.ltb, PyFloat.leb, SFleb, SFltb.
  repeat match goal with
         | |- context [PyFloat.literal ?n ?d] =>
             let v := eval vm_compute in (PyFloat.literal n d) in
             replace (PyFloat.literal n d) with v by (vm_compute; reflexivity)
         end.
  cbn [SFopp negb].
  destruct degree as [s|s| |s m e]; try (destruct s);
    cbn [SFcompare andb orb]; try discriminate.
  set (c22 := 6333186975989760%positive).
  set (c67 := 4749890231992320%positive).
  set (c112 := 7916483719987200%positive).
  set (c157 := 5541538603991040%positive).
  assert (H67 : (c67 < c112)%positive) by reflexivity.
  assert (H157 : (c157 < c22)%positive) by reflexivity.
  clearbody c22 c67 c112 c157.
  repeat match goal with
         | |- context [Z.compare ?a ?b] =>
             destruct (Z.compare_spec a b); try (exfalso; lia)
         end.
  all: cbn [CompOpp andb orb];
    try (intros Hsector; discriminate Hsector); try reflexivity.
  all: repeat match goal with
         | |- context [PosDef.Pos.compare_cont Eq ?a ?b] =>
             destruct (compare_cont_spec a b); try (exfalso; lia)
         end.
  all: cbn [CompOpp andb orb]; intros Hsector; try discriminate Hsector;
    reflexivity.
Qed.

(** C6. [get_direction] does not return the label of the bucket table.
    From a station to one that lies one degree further north and one degree
    further west the degree is in the NORTHWEST sector, and the function
    returns [None]; and for the example of its own docstring, station 7087
    to station 7088, it returns ['WEST'] where the docstring and the
    specification say ['SOUTHWEST']. The two values of [atan2] are those of
    [math.atan2] at these arguments. *)
Theorem get_direction_diverges (atan2 : float -> float -> float) :
  atan2 (SFopp (PyFloat.literal 1 1)) (PyFloat.literal 1 1)
    = minus_quarter_pi ->
  atan2 (PyFloat.sub (PyFloat.literal 43684371 1000000)
                     (PyFloat.literal 43683378 1000000))
        (PyFloat.sub (SFopp (PyFloat.literal 79316756 1000000))
                     (SFopp (PyFloat.literal 79322961 1000000)))
    = sample_angle ->
  get_direction atan2 1 2 NORTHWEST_STATIONS = (Ok None, NORTHWEST_STATIONS) /\
  in_northwest_sector
    (degree_of atan2 (PyFloat.literal 43 1) (SFopp (PyFloat.literal 79 1))
                     (PyFloat.literal 44 1) (SFopp (PyFloat.literal 80 1)))
    = true /\
  get_direction atan2 7087 7088 SAMPLE_STATIONS
    = (Ok (Some "WEST"%string), SAMPLE_STATIONS).
Proof.
  intros Hdiagonal Hsample.
  assert (Hdegree :
    degree_of atan2 (PyFloat.literal 43 1) (SFopp (PyFloat.literal 79 1))
                    (PyFloat.literal 44 1) (SFopp (PyFloat.literal 80 1))
    = SFopp (PyFloat.literal 45 1)).
  { unfold degree_of.
    replace (PyFloat.sub (PyFloat.literal 43 1) (PyFloat.literal 44 1))
      with (SFopp (PyFloat.literal 1 1)) by (vm_compute; reflexivity).
    replace (PyFloat.sub (SFopp (PyFloat.literal 79 1))
                         (SFopp (PyFloat.literal 80 1)))
      with (PyFloat.literal 1 1) by (vm_compute; reflexivity).
    rewrite Hdiagonal. vm_compute. reflexivity. }
  split; [|split].
  - rewrite (get_direction_run atan2 1 2 NORTHWEST_STATIONS
               (PyFloat.literal 43 1) (SFopp (PyFloat.literal 79 1))
               (PyFloat.literal 44 1) (SFopp (PyFloat.literal 80 1)))
      by (vm_compute; reflexivity).
    replace (PyFloat.eqb (SFopp (PyFloat.literal 79 1))
                         (SFopp (PyFloat.literal 80 1)))
      with false by (vm_compute; reflexivity).
    rewrite Hdegree. vm_compute. reflexivity.
  - rewrite Hdegree. vm_compute. reflexivity.
  - rewrite (get_direction_run atan2 7087 7088 SAMPLE_STATIONS
               (PyFloat.literal 43684371 1000000)
               (SFopp (PyFloat.literal 79316756 1000000))
               (PyFloat.literal 43683378 1000000)
               (SFopp (PyFloat.literal 79322961 1000000)))
      by (vm_compute; reflexivity).
    replace (PyFloat.eqb (SFopp (PyFloat.literal 79316756 1000000))
                         (SFopp (PyFloat.literal 79322961 1000000)))
      with false by (vm_compute; reflexivity).
    unfold degree_of. rewrite Hsample. vm_compute. reflexivity.
Qed.

(** *** The loop of [get_direction] on distinct ids *)

Lemma locate_distinct start_id end_id rows las los lae loe :
  start_id <> end_id ->
  fold_left (locate start_id end_id) rows (las, los, lae, loe) =
    (fst (last_coordinates start_id rows (las, los)),
     snd (last_coordinates start_id rows (las, los)),
     fst (last_coordinates end_id rows (lae, loe)),
     snd (last_coordinates end_id rows (lae, loe))).
Proof.
  intros Hne. revert las los lae loe.
  induction rows as [|row rows IH]; intros las los lae loe; [reflexivity|].
  unfold last_coordinates. cbn [fold_left locate].
  destruct (Z.eqb_spec (ID row) start_id) as [Hs|Hs].
  - destruct (Z.eqb_spec (ID row) end_id) as [He|He]; [congruence|].
    apply IH.
  - destruct (Z.eqb_spec (ID row) end_id) as [He|He]; apply IH.
Qed.

Lemma last_coordinates_absent station_id rows found :
  (forall j row, rows !! j = Some row -> ID row <> station_id) ->
  last_coordinates station_id rows found = found.
Proof.
  revert found. induction rows as [|row rows IH]; intros found Habsent.
  - reflexivity.
  - unfold last_coordinates. cbn [fold_left].
    destruct (Z.eqb_spec (ID row) station_id) as [Heq|_].
    + now destruct (Habsent O row eq_refl).
    + apply IH. intros j row' Hj. apply (Habsent (S j) row' Hj).
Qed.

Lemma last_coordinates_unique station_id i row rows found :
  unique_at station_id i row rows ->
  last_coordinates station_id rows found
    = (Some (LATITUDE row), Some (LONGITUDE row)).
Proof.
  revert i found. induction rows as [|row0 rows IH];
    intros i found (Hrow & Hid & Huniq).
  - discriminate.
  - unfold last_coordinates. cbn [fold_left]. destruct i as [|i].
    + injection Hrow as ->. rewrite (proj2 (Z.eqb_eq _ _) Hid).
      apply last_coordinates_absent. intros j row' Hj Hid'.
      now specialize (Huniq (S j) row' Hj Hid').
    + destruct (Z.eqb_spec (ID row0) station_id) as [Heq|_].
      * now specialize (Huniq O row0 eq_refl Heq).
      * apply (IH i). repeat split; [exact Hrow | exact Hid |].
        intros j row' Hj Hid'. specialize (Huniq (S j) row' Hj Hid'). lia.
Qed.

(** For two distinct ids, each the id of one row, [get_direction] raises
    nothing, writes nothing and returns what the chain of comparisons gives
    for the degree of the two rows, the start longitude moved by [0.00001]
    when the two longitudes are equal. *)
Lemma get_direction_found atan2 start_id end_id stations i j row_s row_e :
  unique_at start_id i row_s stations ->
  unique_at end_id j row_e stations ->
  start_id <> end_id ->
  get_direction atan2 start_id end_id stations =
    (Ok (direction_of_degree
           (degree_of atan2 (LATITUDE row_s)
              (if PyFloat.eqb (LONGITUDE row_s) (LONGITUDE row_e)
               then PyFloat.add (LONGITUDE row_s) (PyFloat.literal 1 100000)
               else LONGITUDE row_s)
              (LATITUDE row_e) (LONGITUDE row_e))),
     stations).
Proof.
  intros Hs He Hne. apply get_direction_run.
  rewrite (locate_distinct _ _ _ _ _ _ _ Hne).
  rewrite (last_coordinates_unique _ _ _ _ _ Hs).
  now rewrite (last_coordinates_unique _ _ _ _ _ He).
Qed.

(** Whenever the degree of two such stations is in the NORTHWEST sector,
    [get_direction] returns [None]. *)
Lemma get_direction_northwest_gap atan2 start_id end_id stations i j
  row_s row_e :
  unique_at start_id i row_s stations ->
  unique_at end_id j row_e stations ->
  start_id <> end_id ->
  in_northwest_sector
    (degree_of atan2 (LATITUDE row_s)
       (if PyFloat.eqb (LONGITUDE row_s) (LONGITUDE row_e)
        then PyFloat.add (LONGITUDE row_s) (PyFloat.literal 1 100000)
        else LONGITUDE row_s)
       (LATITUDE row_e) (LONGITUDE row_e)) = true ->
  get_direction atan2 start_id end_id stations = (Ok None, stations).
Proof.
  intros Hs He Hne Hsector.
  rewrite (get_direction_found _ _ _ _ _ _ _ _ Hs He Hne).
  now rewrite direction_of_degree_northwest_gap.
Qed.

(** ** The examples of the docstrings *)

Example get_station_info_sample :
  fst (get_station_info 7087 SAMPLE_STATIONS)
    = Ok [PyStr "Danforth/Aldridge"; PyInt 9; PyInt 14] /\
  fst (get_station_info 7088 SAMPLE_STATIONS)
    = Ok [PyStr "Danforth/Coxwell"; PyInt 13; PyInt 2].
Proof. split; reflexivity. Qed.

Example get_total_sample :
  fst (get_total COL_BIKES_AVAILABLE SAMPLE_STATIONS) = Ok 22 /\
  fst (get_total COL_DOCKS_AVAILABLE SAMPLE_STATIONS) = Ok 16.
Proof. split; reflexivity. Qed.

Example get_station_with_max_bikes_sample :
  fst (get_station_with_max_bikes SAMPLE_STATIONS) = Ok 7088.
Proof. reflexivity. Qed.

Example get_stations_with_n_docks_sample :
  fst (get_stations_with_n_docks 2 SAMPLE_STATIONS) = Ok [7087; 7088] /\
  fst (get_stations_with_n_docks 5 SAMPLE_STATIONS) = Ok [7087].
Proof. split; reflexivity. Qed.

Example rent_bike_sample :
  fst (rent_bike 7087 SAMPLE_STATIONS) = Ok true /\
  (BIKES_AVAILABLE <$> snd (rent_bike 7087 SAMPLE_STATIONS)) = [8; 13] /\
  (DOCKS_AVAILABLE <$> snd (rent_bike 7087 SAMPLE_STATIONS)) = [15; 2] /\
  rent_bike 7088 SAMPLE_STATIONS = (Ok false, SAMPLE_STATIONS).
Proof. repeat split; vm_compute; reflexivity. Qed.

Example return_bike_sample :
  fst (return_bike 7087 SAMPLE_STATIONS) = Ok true /\
  (BIKES_AVAILABLE <$> snd (return_bike 7087 SAMPLE_STATIONS)) = [10; 13] /\
  (DOCKS_AVAILABLE <$> snd (return_bike 7087 SAMPLE_STATIONS)) = [13; 2] /\
  return_bike 7088 SAMPLE_STATIONS = (Ok false, SAMPLE_STATIONS).
Proof. repeat split; vm_compute; reflexivity. Qed.

(** ** The theorems on the sample data *)

Lemma sample_unique_7087 :
  unique_at 7087 0
    (mkStation 7087 "Danforth/Aldridge"
       (PyFloat.literal 43684371 1000000)
       (SFopp (PyFloat.literal 79316756 1000000)) 23 9 14 true true)
    SAMPLE_STATIONS.
Proof.
  split; [reflexivity|]. split; [reflexivity|].
  intros [|[|j]] row' Hj Hid; [reflexivity| |discriminate].
  injection Hj as <-. discriminate.
Defined.

Lemma sample_absent_9999 :
  forall row, row ∈ SAMPLE_STATIONS -> ID row <> 9999.
Proof.
  intros row Hin. apply list_elem_of_In in Hin.
  destruct Hin as [<-|[<-|[]]]; discriminate.
Defined.

Lemma rent_bike_correct_witness :
  rent_bike 7087 SAMPLE_STATIONS =
    (Ok true,
     [ mkStation 7087 "Danforth/Aldridge"
         (PyFloat.literal 43684371 1000000)
         (SFopp (PyFloat.literal 79316756 1000000)) 23 8 15 true true;
       mkStation 7088 "Danforth/Coxwell"
         (PyFloat.literal 43683378 1000000)
         (SFopp (PyFloat.literal 79322961 1000000)) 15 13 2 false false ]).
Proof.
  apply (rent_bike_correct 7087 SAMPLE_STATIONS 0 _ sample_unique_7087).
  split; [reflexivity | reflexivity].
Defined.

Lemma return_bike_correct_witness :
  return_bike 7087 SAMPLE_STATIONS =
    (Ok true,
     [ mkStation 7087 "Danforth/Aldridge"
         (PyFloat.literal 43684371 1000000)
         (SFopp (PyFloat.literal 79316756 1000000)) 23 10 13 true true;
       mkStation 7088 "Danforth/Coxwell"
         (PyFloat.literal 43683378 1000000)
         (SFopp (PyFloat.literal 79322961 1000000)) 15 13 2 false false ]).
Proof.
  apply (return_bike_correct 7087 SAMPLE_STATIONS 0 _ sample_unique_7087).
  split; [reflexivity | reflexivity].
Defined.

Lemma rent_return_absent_id_witness :
  rent_bike 9999 SAMPLE_STATIONS = (Ok false, SAMPLE_STATIONS) /\
  return_bike 9999 SAMPLE_STATIONS = (Ok false, SAMPLE_STATIONS).
Proof.
  apply (rent_return_absent_id 9999 SAMPLE_STATIONS sample_absent_9999).
Defined.

Lemma get_station_with_max_bikes_correct_witness :
  exists (i : nat) (row : Station),
    SAMPLE_STATIONS !! i = Some row /\
    get_station_with_max_bikes SAMPLE_STATIONS
      = (Ok (ID row), SAMPLE_STATIONS) /\
    (forall j row', SAMPLE_STATIONS !! j = Some row' ->
                    BIKES_AVAILABLE row' <= BIKES_AVAILABLE row) /\
    (forall j row', (j < i)%nat -> SAMPLE_STATIONS !! j = Some row' ->
                    BIKES_AVAILABLE row' < BIKES_AVAILABLE row).
Proof.
  apply (get_station_with_max_bikes_correct SAMPLE_STATIONS). discriminate.
Defined.

Lemma get_stations_with_n_docks_correct_witness :
  get_stations_with_n_docks 5 SAMPLE_STATIONS =
    (Ok (ID <$> filter (fun row => 5 <= DOCKS_AVAILABLE row) SAMPLE_STATIONS),
     SAMPLE_STATIONS) /\
  (Forall (fun row => 0 <= DOCKS_AVAILABLE row) SAMPLE_STATIONS ->
   get_stations_with_n_docks 0 SAMPLE_STATIONS
     = (Ok (ID <$> SAMPLE_STATIONS), SAMPLE_STATIONS)).
Proof.
  apply (get_stations_with_n_docks_correct 5 SAMPLE_STATIONS). lia.
Defined.

Lemma mutation_keeps_station_total_witness :
  exists row',
    mutate Balance_all_bikes HANDOUT_STATIONS !! 1%nat = Some row' /\
    BIKES_AVAILABLE row' + DOCKS_AVAILABLE row' = 5 + 10.
Proof.
  apply (mutation_keeps_station_total Balance_all_bikes HANDOUT_STATIONS 1
           (mkStation 7001 "Lower Jarvis St / The Esplanade"
              (PyFloat.literal 43647992 1000000)
              (SFopp (PyFloat.literal 79370907 1000000)) 15 5 10 true true)).
  reflexivity.
Defined.

Lemma balance_all_bikes_balanced_witness :
  snd (balance_all_bikes EVEN_STATIONS) = EVEN_STATIONS /\
  snd (balance_all_bikes (snd (balance_all_bikes EVEN_STATIONS)))
    = EVEN_STATIONS /\
  (Forall (fun row => exists fig, figures 50 row = Ok fig) EVEN_STATIONS ->
   balance_all_bikes EVEN_STATIONS = (Ok tt, EVEN_STATIONS)).
Proof.
  apply (balance_all_bikes_balanced EVEN_STATIONS 50).
  - vm_compute. reflexivity.
  - repeat constructor; vm_compute; reflexivity.
Defined.

Lemma get_direction_diverges_witness :
  get_direction atan2_at_samples 1 2 NORTHWEST_STATIONS
    = (Ok None, NORTHWEST_STATIONS) /\
  in_northwest_sector
    (degree_of atan2_at_samples
       (PyFloat.literal 43 1) (SFopp (PyFloat.literal 79 1))
       (PyFloat.literal 44 1) (SFopp (PyFloat.literal 80 1)))
    = true /\
  get_direction atan2_at_samples 7087 7088 SAMPLE_STATIONS
    = (Ok (Some "WEST"%string), SAMPLE_STATIONS).
Proof.
  apply (get_direction_diverges atan2_at_samples).
  - vm_compute. reflexivity.
  - vm_compute. reflexivity.
Defined.

(** * Further properties of the operations *)

(** ** The information of one station *)

Lemma fold_station_info station_id rows acc :
  fold_left
    (fun acc row =>
       if ID row =? station_id
       then acc ++ [PyStr (NAME row); PyInt (BIKES_AVAILABLE row);
                    PyInt (DOCKS_AVAILABLE row)]
       else acc)
    rows acc
  = acc ++ flat_map (station_info_of station_id) rows.
Proof.
  revert acc. induction rows as [|row rows IH]; intros acc.
  - cbn. now rewrite app_nil_r.
  - cbn [fold_left flat_map]. rewrite IH. unfold station_info_of.
    destruct (ID row =? station_id); [|reflexivity].
    now rewrite <- app_assoc.
Qed.

Lemma get_station_info_run station_id stations :
  get_station_info station_id stations
    = (Ok (flat_map (station_info_of station_id) stations), stations).
Proof.
  unfold get_station_info.
  rewrite (for_range_reading _ _ _ _ (get_station_info_body_local _)).
  now rewrite fold_station_info.
Qed.

Lemma flat_map_no_row {A : Type} (f : Station -> list A) (rows : list Station) :
  (forall j row, rows !! j = Some row -> f row = []) -> flat_map f rows = [].
Proof.
  induction rows as [|row rows IH]; intros Hnone; [reflexivity|].
  cbn. rewrite (Hnone O row eq_refl). cbn. apply IH.
  intros j row' Hj. apply (Hnone (S j) row' Hj).
Qed.

Lemma flat_map_one_row {A : Type} (f : Station -> list A) rows i row :
  rows !! i = Some row ->
  (forall j row', rows !! j = Some row' -> j <> i -> f row' = []) ->
  flat_map f rows = f row.
Proof.
  revert i. induction rows as [|row0 rows IH]; intros i Hrow Hother.
  - discriminate.
  - cbn [flat_map]. destruct i as [|i].
    + injection Hrow as ->. rewrite flat_map_no_row; [apply app_nil_r|].
      intros j row' Hj. apply (Hother (S j) row' Hj). lia.
    + rewrite (Hother O row0 eq_refl) by lia. cbn.
      apply (IH i Hrow). intros j row' Hj Hne.
      apply (Hother (S j) row' Hj). lia.
Qed.

(** X1. When [station_id] is the id of exactly one row, [get_station_info]
    returns the name, the bikes and the docks of that row, in this order,
    and writes nothing. *)
Theorem get_station_info_unique (station_id : Z) (stations : SystemData)
  (i : nat) (row : Station) :
  unique_at station_id i row stations ->
  get_station_info station_id stations =
    (Ok [PyStr (NAME row); PyInt (BIKES_AVAILABLE row);
         PyInt (DOCKS_AVAILABLE row)],
     stations).
Proof.
  intros (Hrow & Hid & Huniq). rewrite get_station_info_run.
  rewrite (flat_map_one_row _ _ i row Hrow).
  - unfold station_info_of. now rewrite (proj2 (Z.eqb_eq _ _) Hid).
  - intros j row' Hj Hne. unfold station_info_of.
    destruct (Z.eqb_spec (ID row') station_id) as [Heq|_]; [|reflexivity].
    now destruct (Hne (Huniq j row' Hj Heq)).
Qed.

(** X2. When no row has the id, [get_station_info] raises nothing: it
    returns the empty list and writes nothing. *)
Theorem get_station_info_absent (station_id : Z) (stations : SystemData) :
  (forall row, row ∈ stations -> ID row <> station_id) ->
  get_station_info station_id stations = (Ok [], stations).
Proof.
  intros Habsent. rewrite get_station_info_run, flat_map_no_row; [reflexivity|].
  intros j row Hj. unfold station_info_of.
  destruct (Z.eqb_spec (ID row) station_id) as [Heq|_]; [|reflexivity].
  destruct (Habsent row (list_elem_of_lookup_2 _ _ _ Hj) Heq).
Qed.

(** ** Totals *)

Lemma sum_column_app (field : Station -> Z) (rows1 rows2 : list Station) :
  sum_column field (rows1 ++ rows2)
  = sum_column field rows1 + sum_column field rows2.
Proof.
  induction rows1 as [|row rows1 IH]; [reflexivity|].
  cbn [app]. rewrite !sum_column_cons, IH. lia.
Qed.

Lemma sum_column_insert (field : Station -> Z) (rows : list Station) i
  row row' :
  rows !! i = Some row ->
  sum_column field (<[i := row']> rows)
  = sum_column field rows - field row + field row'.
Proof.
  revert i. induction rows as [|row0 rows IH]; intros i Hrow; [discriminate|].
  destruct i as [|i].
  - injection Hrow as ->. change (<[0%nat := row']> (row :: rows))
      with (row' :: rows). rewrite !sum_column_cons. lia.
  - change (<[S i := row']> (row0 :: rows)) with (row0 :: <[i := row']> rows).
    rewrite !sum_column_cons, (IH i Hrow). lia.
Qed.

(** [get_total] raises nothing and writes nothing, and the total of a
    column over two repositories put end to end is the sum of the two
    totals. *)
Theorem get_total_app (index : IntColumn) (stations1 stations2 : SystemData) :
  exists total1 total2,
    get_total index stations1 = (Ok total1, stations1) /\
    get_total index stations2 = (Ok total2, stations2) /\
    get_total index (stations1 ++ stations2)
      = (Ok (total1 + total2), stations1 ++ stations2).
Proof.
  exists (sum_column (column index) stations1),
         (sum_column (column index) stations2).
  rewrite !get_total_run, sum_column_app. auto.
Qed.

(** X3. The total of the bikes plus the total of the docks, as [get_total]
    computes them, is the same after [rent_bike], [return_bike] or
    [balance_all_bikes] as before. *)
Theorem mutation_keeps_get_total (op : mutation) (stations : SystemData) :
  exists bikes docks bikes' docks',
    fst (get_total COL_BIKES_AVAILABLE stations) = Ok bikes /\
    fst (get_total COL_DOCKS_AVAILABLE stations) = Ok docks /\
    fst (get_total COL_BIKES_AVAILABLE (mutate op stations)) = Ok bikes' /\
    fst (get_total COL_DOCKS_AVAILABLE (mutate op stations)) = Ok docks' /\
    bikes' + docks' = bikes + docks.
Proof.
  exists (sum_column BIKES_AVAILABLE stations),
         (sum_column DOCKS_AVAILABLE stations),
         (sum_column BIKES_AVAILABLE (mutate op stations)),
         (sum_column DOCKS_AVAILABLE (mutate op stations)).
  rewrite !get_total_run. cbn [fst column]. repeat split.
  apply sum_column_same_station, mutate_same_station.
Qed.

(** ** Rent and return on the row of an id *)

Lemma rent_bike_unique station_id stations i row :
  unique_at station_id i row stations ->
  rent_bike station_id stations =
    (Ok (can_rent station_id row),
     <[i := if can_rent station_id row then rented row else row]> stations).
Proof.
  intros (Hrow & Hid & Huniq).
  assert (Hother : forall j row', stations !! j = Some row' -> j <> i ->
                                  can_rent station_id row' = false).
  { intros j row' Hj Hne. apply can_rent_other. intros Heq.
    apply Hne. eapply Huniq; eauto. }
  rewrite rent_bike_run, (existsb_one_row _ _ _ Hrow _ Hother).
  rewrite (fmap_one_row _ _ _ Hrow); [reflexivity|].
  intros j row' Hj Hne. now rewrite (Hother j row' Hj Hne).
Qed.

Lemma return_bike_unique station_id stations i row :
  unique_at station_id i row stations ->
  return_bike station_id stations =
    (Ok (can_return station_id row),
     <[i := if can_return station_id row then returned row else row]>
       stations).
Proof.
  intros (Hrow & Hid & Huniq).
  assert (Hother : forall j row', stations !! j = Some row' -> j <> i ->
                                  can_return station_id row' = false).
  { intros j row' Hj Hne. apply can_return_other. intros Heq.
    apply Hne. eapply Huniq; eauto. }
  rewrite return_bike_run, (existsb_one_row _ _ _ Hrow _ Hother).
  rewrite (fmap_one_row _ _ _ Hrow); [reflexivity|].
  intros j row' Hj Hne. now rewrite (Hother j row' Hj Hne).
Qed.

Lemma unique_at_insert station_id stations i row row' :
  unique_at station_id i row stations ->
  ID row' = ID row ->
  unique_at station_id i row' (<[i := row']> stations).
Proof.
  intros (Hrow & Hid & Huniq) Hsame. split; [|split].
  - now apply lookup_insert_same with row.
  - congruence.
  - intros j row'' Hj Hid'.
    destruct (decide (j = i)) as [->|Hne]; [reflexivity|].
    rewrite list_lookup_insert_ne in Hj by congruence. eauto.
Qed.

Lemma returned_rented row : returned (rented row) = row.
Proof.
  destruct row. unfold returned, rented, set_docks, set_bikes. cbn.
  f_equal; lia.
Qed.

Lemma rented_returned row : rented (returned row) = row.
Proof.
  destruct row. unfold returned, rented, set_docks, set_bikes. cbn.
  f_equal; lia.
Qed.

(** X4. When the id is on exactly one row, which is renting and has a bike,
    [rent_bike] lowers the total of the bikes by one and raises the total of
    the docks by one. *)
Theorem rent_bike_totals (station_id : Z) (stations : SystemData) (i : nat)
  (row : Station) :
  unique_at station_id i row stations ->
  IS_RENTING row = true -> 0 < BIKES_AVAILABLE row ->
  exists bikes docks,
    fst (get_total COL_BIKES_AVAILABLE stations) = Ok bikes /\
    fst (get_total COL_DOCKS_AVAILABLE stations) = Ok docks /\
    fst (get_total COL_BIKES_AVAILABLE (snd (rent_bike station_id stations)))
      = Ok (bikes - 1) /\
    fst (get_total COL_DOCKS_AVAILABLE (snd (rent_bike station_id stations)))
      = Ok (docks + 1).
Proof.
  intros Huniq Hrenting Hbikes.
  exists (sum_column BIKES_AVAILABLE stations),
         (sum_column DOCKS_AVAILABLE stations).
  rewrite (rent_bike_unique _ _ _ _ Huniq), !get_total_run.
  destruct Huniq as (Hrow & Hid & _).
  assert (Hcan : can_rent station_id row = true).
  { unfold can_rent. rewrite (proj2 (Z.eqb_eq _ _) Hid), Hrenting.
    now apply Z.ltb_lt in Hbikes as ->. }
  rewrite Hcan. cbn [fst snd column].
  rewrite !(sum_column_insert _ _ _ _ _ Hrow). cbn.
  repeat split; f_equal; lia.
Qed.

(** X5. When the id is on exactly one row, which is returning and has a
    dock, [return_bike] raises the total of the bikes by one and lowers the
    total of the docks by one. *)
Theorem return_bike_totals (station_id : Z) (stations : SystemData) (i : nat)
  (row : Station) :
  unique_at station_id i row stations ->
  IS_RETURNING row = true -> 0 < DOCKS_AVAILABLE row ->
  exists bikes docks,
    fst (get_total COL_BIKES_AVAILABLE stations) = Ok bikes /\
    fst (get_total COL_DOCKS_AVAILABLE stations) = Ok docks /\
    fst (get_total COL_BIKES_AVAILABLE (snd (return_bike station_id stations)))
      = Ok (bikes + 1) /\
    fst (get_total COL_DOCKS_AVAILABLE (snd (return_bike station_id stations)))
      = Ok (docks - 1).
Proof.
  intros Huniq Hreturning Hdocks.
  exists (sum_column BIKES_AVAILABLE stations),
         (sum_column DOCKS_AVAILABLE stations).
  rewrite (return_bike_unique _ _ _ _ Huniq), !get_total_run.
  destruct Huniq as (Hrow & Hid & _).
  assert (Hcan : can_return station_id row = true).
  { unfold can_return. rewrite (proj2 (Z.eqb_eq _ _) Hid), Hreturning.
    now apply Z.ltb_lt in Hdocks as ->. }
  rewrite Hcan. cbn [fst snd column].
  rewrite !(sum_column_insert _ _ _ _ _ Hrow). cbn.
  repeat split; f_equal; lia.
Qed.

(** X6. Renting a bike and returning it to the same station gives back the
    repository: when the id is on exactly one row that rents and takes
    returns, has a bike and no negative number of docks, [rent_bike]
    returns [True] and [return_bike] on the result returns [True] and
    restores every row. *)
Theorem rent_then_return (station_id : Z) (stations : SystemData) (i : nat)
  (row : Station) :
  unique_at station_id i row stations ->
  IS_RENTING row = true -> IS_RETURNING row = true ->
  0 < BIKES_AVAILABLE row -> 0 <= DOCKS_AVAILABLE row ->
  fst (rent_bike station_id stations) = Ok true /\
  return_bike station_id (snd (rent_bike station_id stations))
    = (Ok true, stations).
Proof.
  intros Huniq Hrenting Hreturning Hbikes Hdocks.
  assert (Hcan : can_rent station_id row = true).
  { destruct Huniq as (_ & Hid & _). unfold can_rent.
    rewrite (proj2 (Z.eqb_eq _ _) Hid), Hrenting.
    now apply Z.ltb_lt in Hbikes as ->. }
  rewrite (rent_bike_unique _ _ _ _ Huniq), Hcan. cbn [fst snd].
  split; [reflexivity|].
  assert (Huniq' : unique_at station_id i (rented row)
                     (<[i := rented row]> stations))
    by (apply (unique_at_insert _ _ _ row); [exact Huniq | reflexivity]).
  rewrite (return_bike_unique _ _ _ _ Huniq').
  assert (Hback : can_return station_id (rented row) = true).
  { destruct Huniq as (_ & Hid & _). unfold can_return. cbn.
    rewrite (proj2 (Z.eqb_eq _ _) Hid), Hreturning.
    cbn. apply Z.ltb_lt. lia. }
  rewrite Hback, list_insert_insert_eq, returned_rented.
  destruct Huniq as (Hrow & _). now rewrite list_insert_id.
Qed.

(** X7. Returning a bike and renting one from the same station gives back
    the repository, under the mirrored conditions. *)
Theorem return_then_rent (station_id : Z) (stations : SystemData) (i : nat)
  (row : Station) :
  unique_at station_id i row stations ->
  IS_RENTING row = true -> IS_RETURNING row = true ->
  0 <= BIKES_AVAILABLE row -> 0 < DOCKS_AVAILABLE row ->
  fst (return_bike station_id stations) = Ok true /\
  rent_bike station_id (snd (return_bike station_id stations))
    = (Ok true, stations).
Proof.
  intros Huniq Hrenting Hreturning Hbikes Hdocks.
  assert (Hcan : can_return station_id row = true).
  { destruct Huniq as (_ & Hid & _). unfold can_return.
    rewrite (proj2 (Z.eqb_eq _ _) Hid), Hreturning.
    now apply Z.ltb_lt in Hdocks as ->. }
  rewrite (return_bike_unique _ _ _ _ Huniq), Hcan. cbn [fst snd].
  split; [reflexivity|].
  assert (Huniq' : unique_at station_id i (returned row)
                     (<[i := returned row]> stations))
    by (apply (unique_at_insert _ _ _ row); [exact Huniq | reflexivity]).
  rewrite (rent_bike_unique _ _ _ _ Huniq').
  assert (Hback : can_rent station_id (returned row) = true).
  { destruct Huniq as (_ & Hid & _). unfold can_rent. cbn.
    rewrite (proj2 (Z.eqb_eq _ _) Hid), Hrenting.
    cbn. apply Z.ltb_lt. lia. }
  rewrite Hback, list_insert_insert_eq, rented_returned.
  destruct Huniq as (Hrow & _). now rewrite list_insert_id.
Qed.

(** ** What the mutations never do *)

(** X8. [rent_bike] and [return_bike] never make a count negative: if no
    count of the repository is negative before the call, none is after. *)
Theorem rent_return_keep_nonnegative (station_id : Z) (stations : SystemData) :
  counts_nonnegative stations ->
  counts_nonnegative (snd (rent_bike station_id stations)) /\
  counts_nonnegative (snd (return_bike station_id stations)).
Proof.
  unfold counts_nonnegative. intros Hall.
  rewrite rent_bike_run, return_bike_run. cbn [snd].
  split; apply Forall_fmap; (eapply Forall_impl; [exact Hall|]);
    intros row [Hb Hd]; unfold compose.
  - destruct (can_rent station_id row) eqn:Hcan; [|auto].
    unfold can_rent in Hcan. apply andb_true_iff in Hcan as [_ Hpos].
    apply Z.ltb_lt in Hpos. cbn. lia.
  - destruct (can_return station_id row) eqn:Hcan; [|auto].
    unfold can_return in Hcan. apply andb_true_iff in Hcan as [_ Hpos].
    apply Z.ltb_lt in Hpos. cbn. lia.
Qed.

(** X9. A row that neither rents nor takes returns is never written: after
    [rent_bike], [return_bike] or [balance_all_bikes] it is what it was. *)
Theorem closed_station_untouched (op : mutation) (stations : SystemData)
  (i : nat) (row : Station) :
  stations !! i = Some row ->
  IS_RENTING row = false -> IS_RETURNING row = false ->
  mutate op stations !! i = Some row.
Proof.
  intros Hrow Hrenting Hreturning.
  destruct op as [station_id|station_id|]; cbn [mutate].
  - rewrite rent_bike_run. cbn [snd]. rewrite list_lookup_fmap, Hrow. cbn.
    unfold can_rent. rewrite Hrenting, andb_false_r. reflexivity.
  - rewrite return_bike_run. cbn [snd]. rewrite list_lookup_fmap, Hrow. cbn.
    unfold can_return. rewrite Hreturning, andb_false_r. reflexivity.
  - destruct (balance_all_bikes_adjusted stations) as [->|(p & _ & Hall)];
      [exact Hrow|].
    destruct (Forall2_lookup_l _ _ _ _ _ Hall Hrow) as (row' & Hrow' & Hadj).
    rewrite Hrow'. f_equal.
    destruct Hadj as [->|[(avg & nr & _ & _ & _ & Hr & _)
                         |(avg & na & _ & _ & _ & Hr & _)]];
      [reflexivity | congruence | congruence].
Qed.

(** X10. [balance_all_bikes] leaves a row alone when the rounded percentage
    of the row is the rounded overall percentage, whatever the other rows
    are. *)
Theorem balance_keeps_station_at_target (stations : SystemData) (p : Z)
  (i : nat) (row : Station) :
  percentage (sum_column BIKES_AVAILABLE stations)
             (sum_column DOCKS_AVAILABLE stations) = Ok p ->
  stations !! i = Some row ->
  percentage (BIKES_AVAILABLE row) (DOCKS_AVAILABLE row) = Ok p ->
  snd (balance_all_bikes stations) !! i = Some row.
Proof.
  intros Hoverall Hrow Hp.
  destruct (balance_all_bikes_adjusted stations) as [->|(p' & Hp' & Hall)];
    [exact Hrow|].
  rewrite Hoverall in Hp'. injection Hp' as <-.
  destruct (Forall2_lookup_l _ _ _ _ _ Hall Hrow) as (row' & Hrow' & Hadj).
  rewrite Hrow'. f_equal.
  destruct Hadj as [->|[(avg & nr & Havg & _ & Hlt & _)
                       |(avg & na & Havg & _ & Hlt & _)]];
    [reflexivity | |]; rewrite Hp in Havg; injection Havg as <-; lia.
Qed.

(** ** When [balance_all_bikes] raises *)

Lemma sweep_cons_fst {L : Type} (step : L -> Station -> result (L * Station))
  row rows acc :
  fst (sweep step (row :: rows) acc) =
    match step acc row with
    | Ok (acc', _) => fst (sweep step rows acc')
    | Raise e => Raise e
    end.
Proof.
  cbn [sweep]. destruct (step acc row) as [[acc' row']|e]; [|reflexivity].
  now destruct (sweep step rows acc').
Qed.

Lemma sweep_pools_figures p rows pools pools' :
  fst (sweep (pools_step p) rows pools) = Ok pools' ->
  Forall (fun row => exists fig, figures p row = Ok fig) rows.
Proof.
  revert pools. induction rows as [|row rows IH]; intros pools Hok.
  - constructor.
  - rewrite sweep_cons_fst in Hok. destruct pools as [excess deficit].
    unfold pools_step in Hok at 1.
    destruct (figures p row) as [[[avg nr] na]|e] eqn:Hfig;
      cbn [rbind] in Hok; [|discriminate].
    constructor; [eauto | eapply IH, Hok].
Qed.

Lemma sweep_pools_returns p rows pools :
  Forall (fun row => exists fig, figures p row = Ok fig) rows ->
  exists pools', fst (sweep (pools_step p) rows pools) = Ok pools'.
Proof.
  intros Hall. revert pools.
  induction Hall as [|row rows [[[avg nr] na] Hfig] _ IH]; intros pools.
  - now exists pools.
  - rewrite sweep_cons_fst. destruct pools as [excess deficit].
    unfold pools_step at 1. rewrite Hfig. cbn [rbind]. apply IH.
Qed.

Lemma sweep_move_returns p rows pools :
  Forall (fun row => exists fig, figures p row = Ok fig) rows ->
  exists pools', fst (sweep (move_step p) rows pools) = Ok pools'.
Proof.
  intros Hall. revert pools.
  induction Hall as [|row rows [[[avg nr] na] Hfig] _ IH]; intros pools.
  - now exists pools.
  - rewrite sweep_cons_fst. destruct pools as [excess deficit].
    unfold move_step at 1. rewrite Hfig. cbn [rbind].
    destruct (_ && _ && _); [apply IH|]. destruct (_ && _ && _ && _); apply IH.
Qed.

(** X11. [balance_all_bikes] returns normally exactly when the overall
    percentage can be computed and, for every row, so can the station
    average, the number to remove and the number to add. *)
Theorem balance_all_bikes_returns_iff (stations : SystemData) :
  fst (balance_all_bikes stations) = Ok tt <->
  exists p,
    percentage (sum_column BIKES_AVAILABLE stations)
               (sum_column DOCKS_AVAILABLE stations) = Ok p /\
    Forall (fun row => exists fig, figures p row = Ok fig) stations.
Proof.
  rewrite balance_all_bikes_run. split.
  - destruct (percentage _ _) as [p|e]; [|discriminate].
    destruct (fst (sweep (pools_step p) stations (0, 0))) as [pools|e] eqn:Hp;
      [|discriminate].
    intros _. exists p. split; [reflexivity|].
    eapply sweep_pools_figures, Hp.
  - intros (p & -> & Hall).
    destruct (sweep_pools_returns p stations (0, 0) Hall) as [pools ->].
    destruct (sweep_move_returns p stations pools Hall) as [pools' Hok].
    destruct (sweep (move_step p) stations pools) as [[pools''|e] rows];
      [reflexivity | discriminate].
Qed.

(** X12. An exception of [balance_all_bikes] comes before the first write:
    when the call raises, the repository is what it was. *)
Theorem balance_all_bikes_raise_unchanged (stations : SystemData) (e : exn) :
  fst (balance_all_bikes stations) = Raise e ->
  snd (balance_all_bikes stations) = stations.
Proof.
  rewrite balance_all_bikes_run.
  destruct (percentage _ _) as [p|e0]; [|reflexivity].
  destruct (fst (sweep (pools_step p) stations (0, 0))) as [pools|e0] eqn:Hp;
    [|reflexivity].
  apply sweep_pools_figures in Hp.
  destruct (sweep_move_returns p stations pools Hp) as [pools' Hok].
  destruct (sweep (move_step p) stations pools) as [[pools''|e0] rows];
    discriminate.
Qed.

Lemma percentage_no_places bikes docks :
  bikes + docks = 0 -> percentage bikes docks = Raise ZeroDivisionError.
Proof.
  intros Hzero. unfold percentage, PyFloat.int_true_divide.
  now rewrite Hzero.
Qed.

(** X13. On a repository whose bikes and docks add up to zero, the empty
    repository among them, [balance_all_bikes] raises [ZeroDivisionError]
    and writes nothing. *)
Theorem balance_all_bikes_no_places (stations : SystemData) :
  sum_column BIKES_AVAILABLE stations
    + sum_column DOCKS_AVAILABLE stations = 0 ->
  balance_all_bikes stations = (Raise ZeroDivisionError, stations).
Proof.
  intros Hzero. rewrite balance_all_bikes_run.
  now rewrite (percentage_no_places _ _ Hzero).
Qed.

(** X14. [balance_all_bikes] never returns normally when some row has bikes
    and docks that add up to zero: it raises and writes nothing. *)
Theorem balance_all_bikes_station_no_places (stations : SystemData) (i : nat)
  (row : Station) :
  stations !! i = Some row ->
  BIKES_AVAILABLE row + DOCKS_AVAILABLE row = 0 ->
  exists e, balance_all_bikes stations = (Raise e, stations).
Proof.
  intros Hrow Hzero.
  destruct (fst (balance_all_bikes stations)) as [[]|e] eqn:Hres.
  - apply balance_all_bikes_returns_iff in Hres as (p & _ & Hall).
    rewrite Forall_forall in Hall.
    destruct (Hall row (list_elem_of_lookup_2 _ _ _ Hrow)) as [fig Hfig].
    unfold figures in Hfig.
    rewrite (percentage_no_places _ _ Hzero) in Hfig. discriminate.
  - exists e. pose proof (balance_all_bikes_raise_unchanged _ _ Hres) as Hsame.
    destruct (balance_all_bikes stations) as [res stations'].
    cbn in *. congruence.
Qed.

(** ** Edge cases of the queries *)

Lemma get_station_with_max_bikes_run stations :
  get_station_with_max_bikes stations =
    match py_max (BIKES_AVAILABLE <$> stations) with
    | Raise e => (Raise e, stations)
    | Ok largest =>
        match py_index largest (BIKES_AVAILABLE <$> stations) with
        | Raise e => (Raise e, stations)
        | Ok maximum => cell maximum ID stations
        end
    end.
Proof.
  unfold get_station_with_max_bikes.
  erewrite bind_Ok
    by (rewrite (for_range_reading _ _ _ _ max_bikes_body_local);
        rewrite fold_max_bikes; reflexivity).
  cbn [app]. unfold bind, lift.
  destruct (py_max _) as [largest|e]; [|reflexivity].
  now destruct (py_index _ _) as [maximum|e].
Qed.

(** X15. [get_station_with_max_bikes] raises exactly on the empty
    repository, and what it raises there is [ValueError]; on any other
    repository it returns the id of one of the rows. *)
Theorem get_station_with_max_bikes_raises_iff (stations : SystemData) :
  (stations = [] ->
   get_station_with_max_bikes stations = (Raise ValueError, stations)) /\
  (stations <> [] ->
   exists row, row ∈ stations /\
     get_station_with_max_bikes stations = (Ok (ID row), stations)) /\
  ((exists e, fst (get_station_with_max_bikes stations) = Raise e)
   <-> stations = []).
Proof.
  assert (Hfull : stations <> [] ->
    exists row, row ∈ stations /\
      get_station_with_max_bikes stations = (Ok (ID row), stations)).
  { intros Hne. rewrite get_station_with_max_bikes_run.
    assert (Hne' : BIKES_AVAILABLE <$> stations <> [])
      by (destruct stations; [congruence | discriminate]).
    destruct (py_max_spec _ Hne') as (m & -> & Hin & _).
    destruct (py_index_spec m _ Hin) as (k & -> & Hk & _).
    rewrite list_lookup_fmap in Hk.
    destruct (stations !! k) as [row|] eqn:Hrow; [|discriminate].
    exists row. split; [eapply list_elem_of_lookup_2, Hrow|].
    now apply cell_Some. }
  split; [intros ->; reflexivity|]. split; [exact Hfull|]. split.
  - intros [e He]. destruct stations as [|row rows]; [reflexivity|].
    destruct Hfull as (row' & _ & Hrun); [discriminate|].
    rewrite Hrun in He. discriminate.
  - intros ->. now exists ValueError.
Qed.

Lemma locate_same_id station_id rows las los :
  exists las' los',
    fold_left (locate station_id station_id) rows (las, los, None, None)
    = (las', los', None, None).
Proof.
  revert las los. induction rows as [|row rows IH]; intros las los.
  - now exists las, los.
  - cbn [fold_left locate]. destruct (ID row =? station_id); apply IH.
Qed.

Lemma locate_start_absent start_id end_id rows las los lae loe :
  (forall row, row ∈ rows -> ID row <> start_id) ->
  exists lae' loe',
    fold_left (locate start_id end_id) rows (las, los, lae, loe)
    = (las, los, lae', loe').
Proof.
  revert lae loe. induction rows as [|row rows IH]; intros lae loe Habsent.
  - now exists lae, loe.
  - cbn [fold_left locate].
    destruct (Z.eqb_spec (ID row) start_id) as [Heq|_].
    + destruct (Habsent row (list_elem_of_here _ _) Heq).
    + destruct (ID row =? end_id); apply IH;
        intros row' Hin; apply Habsent; now apply list_elem_of_further.
Qed.

Lemma locate_end_absent start_id end_id rows las los lae loe :
  (forall row, row ∈ rows -> ID row <> end_id) ->
  exists las' los',
    fold_left (locate start_id end_id) rows (las, los, lae, loe)
    = (las', los', lae, loe).
Proof.
  revert las los. induction rows as [|row rows IH]; intros las los Habsent.
  - now exists las, los.
  - cbn [fold_left locate].
    assert (Hrest : forall row', row' ∈ rows -> ID row' <> end_id)
      by (intros row' Hin; apply Habsent; now apply list_elem_of_further).
    destruct (ID row =? start_id); [now apply IH|].
    destruct (Z.eqb_spec (ID row) end_id) as [Heq|_]; [|now apply IH].
    destruct (Habsent row (list_elem_of_here _ _) Heq).
Qed.

Lemma get_direction_unbound atan2 start_id end_id stations las los lae loe :
  fold_left (locate start_id end_id) stations (None, None, None, None)
    = (las, los, lae, loe) ->
  los = None \/ loe = None ->
  get_direction atan2 start_id end_id stations
    = (Raise UnboundLocalError, stations).
Proof.
  intros Hfound Hnone. unfold get_direction.
  erewrite bind_Ok
    by apply (for_range_reading _ _ _ _ (get_direction_body_local _ _)).
  rewrite Hfound. unfold bind, local, lift, ret.
  destruct los; [|reflexivity]. destruct loe; [|reflexivity].
  destruct Hnone; discriminate.
Qed.

(** X16. [get_direction] from a station to itself never gives a direction:
    with the same id as start and as end it raises [UnboundLocalError] on
    every repository, and writes nothing. *)
Theorem get_direction_same_id (atan2 : float -> float -> float)
  (station_id : Z) (stations : SystemData) :
  get_direction atan2 station_id station_id stations
    = (Raise UnboundLocalError, stations).
Proof.
  destruct (locate_same_id station_id stations None None)
    as (las & los & Hfound).
  eapply get_direction_unbound; [exact Hfound | now right].
Qed.

(** X17. When the start id or the end id is on no row, [get_direction]
    raises [UnboundLocalError] and writes nothing. *)
Theorem get_direction_absent_id (atan2 : float -> float -> float)
  (start_id end_id : Z) (stations : SystemData) :
  (forall row, row ∈ stations -> ID row <> start_id) \/
  (forall row, row ∈ stations -> ID row <> end_id) ->
  get_direction atan2 start_id end_id stations
    = (Raise UnboundLocalError, stations).
Proof.
  intros [Habsent|Habsent].
  - destruct (locate_start_absent start_id end_id stations
                None None None None Habsent) as (lae & loe & Hfound).
    eapply get_direction_unbound; [exact Hfound | now left].
  - destruct (locate_end_absent start_id end_id stations
                None None None None Habsent) as (las & los & Hfound).
    eapply get_direction_unbound; [exact Hfound | now right].
Qed.

(** X18. Asking for more docks gives fewer stations, in the same order: for
    [n <= m] the list [get_stations_with_n_docks] returns for [m] is a
    sublist of the one it returns for [n]. *)
Theorem get_stations_with_n_docks_antitone (n m : Z) (stations : SystemData) :
  n <= m ->
  exists ids_n ids_m,
    fst (get_stations_with_n_docks n stations) = Ok ids_n /\
    fst (get_stations_with_n_docks m stations) = Ok ids_m /\
    ids_m `sublist_of` ids_n /\
    ids_n `sublist_of` (ID <$> stations).
Proof.
  intros Hle.
  exists (ID <$> filter (fun row => n <= DOCKS_AVAILABLE row) stations),
         (ID <$> filter (fun row => m <= DOCKS_AVAILABLE row) stations).
  unfold get_stations_with_n_docks.
  rewrite !(for_range_reading _ _ _ _ (n_docks_body_local _)), !fold_n_docks.
  cbn [fst app]. repeat split.
  - induction stations as [|row rows IH]; [constructor|].
    destruct (decide (m <= DOCKS_AVAILABLE row)) as [Hm|Hm].
    + rewrite (filter_cons_True (fun row => m <= DOCKS_AVAILABLE row))
        by exact Hm.
      rewrite (filter_cons_True (fun row => n <= DOCKS_AVAILABLE row))
        by lia.
      cbn. now constructor.
    + rewrite (filter_cons_False (fun row => m <= DOCKS_AVAILABLE row))
        by exact Hm.
      destruct (decide (n <= DOCKS_AVAILABLE row)) as [Hn|Hn].
      * rewrite (filter_cons_True (fun row => n <= DOCKS_AVAILABLE row))
          by exact Hn.
        cbn. now constructor.
      * now rewrite
          (filter_cons_False (fun row => n <= DOCKS_AVAILABLE row))
          by exact Hn.
  - induction stations as [|row rows IH]; [constructor|].
    destruct (decide (n <= DOCKS_AVAILABLE row)) as [Hn|Hn].
    + rewrite (filter_cons_True (fun row => n <= DOCKS_AVAILABLE row))
        by exact Hn.
      cbn. now constructor.
    + rewrite (filter_cons_False (fun row => n <= DOCKS_AVAILABLE row))
        by exact Hn.
      cbn. now constructor.
Qed.

(** ** The labels of all degrees *)

(** Puts the float constants of a goal in their evaluated form. *)
Ltac eval_literals :=
  repeat match goal with
         | |- context [PyFloat.literal ?n ?d] =>
             let v := eval vm_compute in (PyFloat.literal n d) in
             replace (PyFloat.literal n d) with v by (vm_compute; reflexivity)
         end.

(** Splits a goal on every comparison of exponents and of mantissas. *)
Ltac compare_cases :=
  repeat match goal with
         | |- context [Z.compare ?a ?b] =>
             destruct (Z.compare_spec a b); try (exfalso; lia)
         end;
  cbn [CompOpp andb orb]; try reflexivity;
  repeat match goal with
         | |- context [PosDef.Pos.compare_cont Eq ?a ?b] =>
             destruct (compare_cont_spec a b); try (exfalso; lia)
         end;
  cbn [CompOpp andb orb]; try reflexivity.

(** X19. The label of every degree: [direction_of_degree] is the sorted
    table [degree_table]. From the smallest degree up: nothing up to -180,
    EAST below -157.5, NORTHEAST up to -112.5, NORTH below -67.5, nothing
    below -22.5, NORTHWEST at -22.5, WEST below 0, NORTHWEST at 0, WEST
    below 22.5, SOUTHWEST up to 67.5, SOUTH below 112.5, SOUTHEAST up to
    157.5, EAST below 180, NORTHWEST from 180 on; nothing for a NaN. *)
Theorem direction_of_degree_table (degree : float) :
  direction_of_degree degree = degree_table degree.
Proof.
  unfold direction_of_degree, degree_table.
  unfold PyFloat.geb, PyFloat.gtb, PyFloat.ltb, PyFloat.leb, SFleb, SFltb.
  eval_literals. cbn [SFopp negb].
  destruct degree as [s|s| |s m e]; try (destruct s);
    cbn [SFcompare andb orb]; try reflexivity.
  - set (c22 := 6333186975989760%positive).
    set (c67 := 4749890231992320%positive).
    set (c112 := 7916483719987200%positive).
    set (c157 := 5541538603991040%positive).
    assert (H67 : (c67 < c112)%positive) by reflexivity.
    assert (H157 : (c157 < c22)%positive) by reflexivity.
    clearbody c22 c67 c112 c157. compare_cases.
  - set (c22 := 6333186975989760%positive).
    set (c67 := 4749890231992320%positive).
    set (c112 := 7916483719987200%positive).
    set (c157 := 5541538603991040%positive).
    assert (H67 : (c67 < c112)%positive) by reflexivity.
    assert (H157 : (c157 < c22)%positive) by reflexivity.
    clearbody c22 c67 c112 c157. compare_cases.
Qed.

(** As [compare_cases], closing each case with [fin]. *)
Ltac compare_cases_with fin :=
  repeat match goal with
         | |- context [Z.compare ?a ?b] =>
             destruct (Z.compare_spec a b); try (exfalso; lia)
         end;
  cbn [CompOpp andb orb]; try (now fin);
  repeat match goal with
         | |- context [PosDef.Pos.compare_cont Eq ?a ?b] =>
             destruct (compare_cont_spec a b); try (exfalso; lia)
         end;
  cbn [CompOpp andb orb]; now fin.

Ltac abstract_mantissas :=
  set (c22 := 6333186975989760%positive);
  set (c67 := 4749890231992320%positive);
  set (c112 := 7916483719987200%positive);
  set (c157 := 5541538603991040%positive);
  assert ((c67 < c112)%positive) by reflexivity;
  assert ((c157 < c22)%positive) by reflexivity;
  clearbody c22 c67 c112 c157.

(** X20. [get_direction]'s chain of comparisons gives no label, and Python
    returns [None], exactly for a NaN, for the degrees up to -180 and for
    the degrees from -67.5 up to, not including, -22.5. *)
Theorem direction_of_degree_none_iff (degree : float) :
  direction_of_degree degree = None <-> no_label degree = true.
Proof.
  unfold direction_of_degree, no_label, in_northwest_sector.
  unfold PyFloat.geb, PyFloat.gtb, PyFloat.ltb, PyFloat.leb, SFleb, SFltb.
  eval_literals. cbn [SFopp negb].
  destruct degree as [s|s| |s m e]; try (destruct s);
    cbn [SFcompare andb orb]; try (split; (reflexivity || discriminate)).
  - abstract_mantissas.
    compare_cases_with ltac:(split; (reflexivity || discriminate)).
  - abstract_mantissas.
    compare_cases_with ltac:(split; (reflexivity || discriminate)).
Qed.

(** X21. The chain gives NORTHWEST exactly for the degrees -22.5 and 0 and
    for the degrees from 180 on: never for a degree strictly between -67.5
    and -22.5. *)
Theorem direction_of_degree_northwest_iff (degree : float) :
  direction_of_degree degree = Some "NORTHWEST"%string
  <-> caught_by_last_branch degree = true.
Proof.
  unfold direction_of_degree, caught_by_last_branch.
  unfold PyFloat.geb, PyFloat.gtb, PyFloat.ltb, PyFloat.leb, PyFloat.eqb,
    SFleb, SFltb, SFeqb.
  eval_literals. cbn [SFopp negb].
  destruct degree as [s|s| |s m e]; try (destruct s);
    cbn [SFcompare andb orb]; try (split; (reflexivity || discriminate)).
  - abstract_mantissas.
    compare_cases_with ltac:(split; (reflexivity || discriminate)).
  - abstract_mantissas.
    compare_cases_with ltac:(split; (reflexivity || discriminate)).
Qed.

(** * Text *)

(** ** The examples of the docstrings *)

Example is_number_examples :
  is_number "csc108" = false /\ is_number "  108 " = true /\
  is_number "+3.14159" = true.
Proof. repeat split. Qed.

(** [strip] takes the white space off the two ends only, and [split] keeps
    the empty items. The line ends with the character of code 10. *)
Example strip_split_values :
  strip (String "009" (String.append " a b " (String "010" EmptyString)))
    = "a b"%string /\
  split "," ",a,,b," = [""; "a"; ""; "b"; ""]%string /\
  split "," "" = [""]%string.
Proof. repeat split. Qed.

Example csv_to_list_values :
  csv_to_list
    [ String.append "id,name" (String "010" EmptyString);
      String.append "7000,Ft. York / Capreol Crt.,43.6"
        (String "010" EmptyString);
      String "010" EmptyString ]
  = ([["7000"; "Ft. York / Capreol Crt."; "43.6"]; [""]]%string, []).
Proof. reflexivity. Qed.

(** ** Reading the file *)

Lemma split_not_nil sep s : split sep s <> [].
Proof.
  destruct s as [|c s]; cbn; [discriminate|].
  destruct (Ascii.eqb c sep); [discriminate|].
  destruct (split sep s); discriminate.
Qed.

Lemma join_cons sep first second others :
  join sep (first :: second :: others)
  = String.append first (String sep (join sep (second :: others))).
Proof. reflexivity. Qed.

Lemma join_split sep s : join sep (split sep s) = s.
Proof.
  induction s as [|c s IH]; [reflexivity|].
  cbn [split]. destruct (Ascii.eqb_spec c sep) as [->|Hne].
  - destruct (split sep s) as [|first others] eqn:Hsplit.
    + now destruct (split_not_nil sep s).
    + rewrite join_cons, IH. reflexivity.
  - destruct (split sep s) as [|first [|second others]] eqn:Hsplit.
    + now destruct (split_not_nil sep s).
    + cbn in *. now rewrite IH.
    + rewrite join_cons in IH. rewrite join_cons. cbn [String.append].
      now rewrite IH.
Qed.

Lemma split_no_separator sep s :
  Forall (fun item => contains sep item = false) (split sep s).
Proof.
  induction s as [|c s IH]; [repeat constructor|].
  cbn [split]. destruct (Ascii.eqb_spec c sep) as [->|Hne].
  - constructor; [reflexivity | exact IH].
  - destruct (split sep s) as [|first others].
    + repeat constructor. cbn. rewrite orb_false_r.
      now apply Ascii.eqb_neq.
    + inversion IH as [|? ? Hfirst Hothers]; subst.
      constructor; [|exact Hothers].
      cbn. rewrite Hfirst, orb_false_r. now apply Ascii.eqb_neq.
Qed.

Lemma fold_csv_lines (lines : list string) (data : list (list string)) :
  fold_left (fun data line => data ++ [split "," (strip line)]) lines data
  = data ++ ((fun line => split "," (strip line)) <$> lines).
Proof.
  revert data. induction lines as [|line lines IH]; intros data.
  - cbn. now rewrite app_nil_r.
  - cbn [fold_left]. rewrite IH. cbn. now rewrite <- app_assoc.
Qed.

Lemma csv_to_list_run (csv_file : TextIO) :
  csv_to_list csv_file
  = ((fun line => split "," (strip line)) <$> tail csv_file, []).
Proof.
  unfold csv_to_list, readline.
  destruct csv_file as [|header lines]; [reflexivity|].
  now rewrite fold_csv_lines.
Qed.

(** X22. [csv_to_list] drops the first line, whatever it holds, and gives
    one row for every other line, a blank line too; every row has at least
    one item; the file is at its end after the call. *)
Theorem csv_to_list_rows (csv_file : TextIO) :
  length (fst (csv_to_list csv_file)) = (length csv_file - 1)%nat /\
  Forall (fun row => row <> []) (fst (csv_to_list csv_file)) /\
  snd (csv_to_list csv_file) = [].
Proof.
  rewrite csv_to_list_run. cbn [fst snd]. split; [|split].
  - rewrite length_fmap. destruct csv_file; cbn; lia.
  - apply Forall_fmap, Forall_forall. intros line _. apply split_not_nil.
  - reflexivity.
Qed.

(** X23. Joining the items of a row with commas gives back its line without
    the white space at its two ends, and no item holds a comma: the rows of
    [csv_to_list] are the lines after the first, cut at every comma. *)
Theorem csv_to_list_join (csv_file : TextIO) :
  join "," <$> fst (csv_to_list csv_file) = strip <$> tail csv_file /\
  Forall (Forall (fun item => contains "," item = false))
         (fst (csv_to_list csv_file)).
Proof.
  rewrite csv_to_list_run. cbn [fst]. split.
  - rewrite <- list_fmap_compose. apply list_fmap_ext.
    intros i line _. apply join_split.
  - apply Forall_fmap, Forall_forall. intros line _.
    apply split_no_separator.
Qed.

(** ** The strings that are numbers *)

Lemma all_chars_app p a b :
  all_chars p (String.append a b) = all_chars p a && all_chars p b.
Proof.
  induction a as [|c a IH]; [reflexivity|].
  cbn. now rewrite IH, andb_assoc.
Qed.

Lemma append_nil_r s : String.append s EmptyString = s.
Proof. induction s as [|c s IH]; [reflexivity|]. cbn. now rewrite IH. Qed.

Lemma append_assoc a b c :
  String.append (String.append a b) c = String.append a (String.append b c).
Proof. induction a as [|x a IH]; [reflexivity|]. cbn. now rewrite IH. Qed.

Lemma lstrip_decompose p s :
  exists stripped,
    s = String.append stripped (lstrip p s) /\ all_chars p stripped = true.
Proof.
  induction s as [|c s (stripped & Hs & Hall)].
  - now exists EmptyString.
  - cbn [lstrip]. destruct (p c) eqn:Hc.
    + exists (String c stripped). split.
      * cbn [String.append]. now rewrite <- Hs.
      * cbn. now rewrite Hc.
    + now exists EmptyString.
Qed.

Lemma lstrip_all p stripped s :
  all_chars p stripped = true ->
  lstrip p (String.append stripped s) = lstrip p s.
Proof.
  induction stripped as [|c stripped IH]; [reflexivity|].
  cbn. intros Hall. apply andb_true_iff in Hall as [-> Hall]. auto.
Qed.

Lemma lstrip_kept p c s : p c = false -> lstrip p (String c s) = String c s.
Proof. intros Hc. cbn. now rewrite Hc. Qed.

Lemma remove_first_absent c s : contains c s = false -> remove_first c s = s.
Proof.
  induction s as [|c' s IH]; [reflexivity|].
  cbn. intros Hno. apply orb_false_iff in Hno as [-> Hno].
  now rewrite IH.
Qed.

Lemma remove_first_app c a b :
  contains c a = false ->
  remove_first c (String.append a (String c b)) = String.append a b.
Proof.
  induction a as [|c' a IH]; cbn.
  - intros _. now rewrite Ascii.eqb_refl.
  - intros Hno. apply orb_false_iff in Hno as [-> Hno]. now rewrite IH.
Qed.

Lemma contains_cases c s :
  contains c s = false \/
  exists a b, s = String.append a (String c b) /\ contains c a = false.
Proof.
  induction s as [|c' s IH]; [now left|].
  cbn. destruct (Ascii.eqb_spec c' c) as [->|Hne].
  - right. now exists EmptyString, s.
  - destruct IH as [Hno|(a & b & -> & Ha)]; [now left|].
    right. exists (String c' a), b. split; [reflexivity|].
    cbn. rewrite Ha, orb_false_r. now apply Ascii.eqb_neq.
Qed.

Lemma isnumeric_not_point c : isnumeric c = true -> Ascii.eqb c "." = false.
Proof.
  intros Hc. destruct (Ascii.eqb_spec c ".") as [->|_]; [|reflexivity].
  discriminate.
Qed.

Lemma isnumeric_not_sign c : isnumeric c = true -> is_sign c = false.
Proof.
  intros Hc. unfold is_sign.
  destruct (Ascii.eqb_spec c "+") as [->|_]; [discriminate|].
  destruct (Ascii.eqb_spec c "-") as [->|_]; [discriminate|reflexivity].
Qed.

Lemma numeric_no_point s :
  all_chars isnumeric s = true -> contains "." s = false.
Proof.
  induction s as [|c s IH]; [reflexivity|].
  cbn. intros Hall. apply andb_true_iff in Hall as [Hc Hall].
  now rewrite (isnumeric_not_point c Hc), IH.
Qed.

Lemma str_isnumeric_iff s :
  str_isnumeric s = true <-> s <> EmptyString /\ all_chars isnumeric s = true.
Proof.
  destruct s as [|c s]; cbn.
  - split; [discriminate | now intros [[] _]].
  - split; [now split | now intros [_ H]].
Qed.

(** X24. [is_number] accepts exactly the strings that, without the white
    space at their two ends, are signs followed by numeric characters with
    at most one point, and hold at least one numeric character: more than
    one sign and a point at either end are accepted. *)
Theorem is_number_iff (value : string) :
  is_number value = true <-> number_shaped (strip value).
Proof.
  unfold is_number. set (s := strip value). clearbody s. split.
  - intros Hnum. apply str_isnumeric_iff in Hnum as [Hne Hall].
    destruct (lstrip_decompose is_sign s) as (signs & Hs & Hsigns).
    set (body := lstrip is_sign s) in *. clearbody body. subst s.
    destruct (contains_cases "." body) as [Hno|(a & b & -> & Ha)].
    + rewrite (remove_first_absent _ _ Hno) in Hne, Hall.
      exists signs, body, EmptyString.
      rewrite append_nil_r. repeat split; auto.
    + rewrite (remove_first_app _ _ _ Ha) in Hne, Hall.
      rewrite all_chars_app in Hall.
      apply andb_true_iff in Hall as [Hwhole Hfrac].
      exists signs, a, b. repeat split; auto.
  - intros (signs & whole & fraction & Hsigns & Hwhole & Hfrac & Hne & Hs).
    assert (Hboth : all_chars isnumeric (String.append whole fraction) = true)
      by now rewrite all_chars_app, Hwhole, Hfrac.
    apply str_isnumeric_iff.
    destruct Hs as [-> | ->]; rewrite (lstrip_all _ _ _ Hsigns).
    + destruct (String.append whole fraction) as [|c rest] eqn:Hbody;
        [congruence|].
      cbn in Hboth. apply andb_true_iff in Hboth as [Hc Hrest].
      rewrite (lstrip_kept _ _ _ (isnumeric_not_sign c Hc)).
      rewrite remove_first_absent.
      * split; [discriminate|]. cbn. now rewrite Hc, Hrest.
      * cbn. now rewrite (isnumeric_not_point c Hc), numeric_no_point.
    + assert (Hkept : lstrip is_sign
                        (String.append whole (String "." fraction))
                      = String.append whole (String "." fraction)).
      { destruct whole as [|c whole]; [reflexivity|].
        cbn in Hwhole. apply andb_true_iff in Hwhole as [Hc _].
        apply lstrip_kept, isnumeric_not_sign, Hc. }
      rewrite Hkept, (remove_first_app _ _ _ (numeric_no_point _ Hwhole)).
      now split.
Qed.

Example is_number_accepts :
  is_number "+-3" = true /\ is_number "--+5." = true /\
  is_number " .5 " = true /\
  is_number (String (ascii_of_N 178) EmptyString) = true /\
  is_number "." = false /\ is_number "1.2.3" = false /\
  is_number "+ 5" = false /\ is_number "1e5" = false /\
  is_number "" = false.
Proof. repeat split. Qed.

(** ** Cleaning the data *)

Section CleanDataProofs.

Variable py_int : string -> result Z.
Variable py_float : string -> result float.

Local Abbreviation clean_value' := (clean_value py_int py_float).
Local Abbreviation clean_item' := (clean_item py_int py_float).
Local Abbreviation clean_items' := (clean_items py_int py_float).
Local Abbreviation clean_rows' := (clean_rows py_int py_float).
Local Abbreviation clean_data' := (clean_data py_int py_float).

Lemma inner_loop_sweep i rest :
  forall before data,
    data !! i = Some (before ++ rest) ->
    cfor (clean_item' i) (length before) (length rest) data =
      let (res, rest') := clean_items' rest in
      (res, <[i := before ++ rest']> data).
Proof.
  induction rest as [|v rest IH]; intros before data Hrow.
  - cbn. unfold cret. now rewrite list_insert_id.
  - cbn [length cfor]. unfold cbind at 1, clean_item at 1, cbind, item.
    rewrite Hrow, (list_lookup_middle before rest v _ eq_refl).
    cbn [clean_items].
    destruct (clean_value' v) as [v'|e].
    + unfold set_item. rewrite Hrow.
      destruct (decide _) as [_|Hout];
        [|destruct Hout; rewrite length_app; cbn; lia].
      assert (Hput : <[length before := v']> (before ++ v :: rest)
                     = (before ++ [v']) ++ rest).
      { rewrite <- app_assoc, insert_app_r_alt, Nat.sub_diag by lia.
        reflexivity. }
      rewrite Hput.
      replace (S (length before)) with (length (before ++ [v']))
        by (rewrite length_app; cbn; lia).
      rewrite (IH (before ++ [v'])).
      * destruct (clean_items' rest) as [res rest'].
        now rewrite list_insert_insert_eq, <- app_assoc.
      * apply list_lookup_insert_eq. eapply lookup_lt_Some, Hrow.
    + now rewrite list_insert_id.
Qed.

Lemma outer_loop_sweep rows :
  forall done,
    cfor (fun i =>
            cbind (len_row i) (fun columns => cfor (clean_item' i) 0 columns))
         (length done) (length rows) (done ++ rows) =
      let (res, rows') := clean_rows' rows in (res, done ++ rows').
Proof.
  induction rows as [|row rows IH]; intros done.
  - reflexivity.
  - cbn [length cfor]. unfold cbind at 1 2, len_row.
    rewrite (list_lookup_middle done rows row _ eq_refl).
    rewrite (inner_loop_sweep _ row [] (done ++ row :: rows))
      by (apply list_lookup_middle; reflexivity).
    cbn [clean_rows app].
    destruct (clean_items' row) as [[[]|e] row'].
    + replace (<[length done := row']> (done ++ row :: rows))
        with ((done ++ [row']) ++ rows)
        by (rewrite <- app_assoc, insert_app_r_alt, Nat.sub_diag by lia;
            reflexivity).
      replace (S (length done)) with (length (done ++ [row']))
        by (rewrite length_app; cbn; lia).
      rewrite IH.
      destruct (clean_rows' rows) as [res rows'].
      now rewrite <- app_assoc.
    + rewrite insert_app_r_alt, Nat.sub_diag by lia. reflexivity.
Qed.

(** [clean_data] is the sweep of the rows. *)
Lemma clean_data_run data : clean_data' data = clean_rows' data.
Proof.
  unfold clean_data, cbind at 1, len_data.
  pose proof (outer_loop_sweep data []) as H. cbn [length app] in H.
  rewrite H. now destruct (clean_rows' data).
Qed.

Lemma clean_items_length row :
  length (snd (clean_items' row)) = length row.
Proof.
  induction row as [|v rest IH]; [reflexivity|].
  cbn [clean_items]. destruct (clean_value' v); [|reflexivity].
  destruct (clean_items' rest). cbn in *. now rewrite IH.
Qed.

Lemma clean_rows_shape data :
  Forall2 (fun row row' => length row' = length row)
          data (snd (clean_rows' data)).
Proof.
  induction data as [|row rest IH]; [constructor|].
  cbn [clean_rows]. pose proof (clean_items_length row) as Hrow.
  destruct (clean_items' row) as [[[]|e] row']; cbn in Hrow.
  - destruct (clean_rows' rest). cbn in *. now constructor.
  - cbn. constructor; [exact Hrow|]. now apply Forall2_diag.
Qed.

Lemma clean_items_app done done' rest :
  Forall2 (cleaned py_int py_float) done done' ->
  clean_items' (done ++ rest) =
    let (res, rest') := clean_items' rest in (res, done' ++ rest').
Proof.
  induction 1 as [|v v' done done' Hv _ IH].
  - cbn. now destruct (clean_items' rest).
  - cbn [app clean_items]. rewrite Hv, IH.
    now destruct (clean_items' rest).
Qed.

Lemma clean_items_all row row' :
  Forall2 (cleaned py_int py_float) row row' ->
  clean_items' row = (Returns tt, row').
Proof.
  intros Hall. pose proof (clean_items_app row row' [] Hall) as H.
  cbn [clean_items] in H. rewrite !app_nil_r in H. exact H.
Qed.

Lemma clean_items_returns row :
  fst (clean_items' row) = Returns tt ->
  Forall2 (cleaned py_int py_float) row (snd (clean_items' row)).
Proof.
  induction row as [|v rest IH]; [constructor|].
  cbn [clean_items]. destruct (clean_value' v) as [v'|e] eqn:Hv;
    [|discriminate].
  destruct (clean_items' rest) as [res rest']. cbn in *.
  intros Hres. constructor; auto.
Qed.

Lemma clean_rows_app done done' rest :
  Forall2 (Forall2 (cleaned py_int py_float)) done done' ->
  clean_rows' (done ++ rest) =
    let (res, rest') := clean_rows' rest in (res, done' ++ rest').
Proof.
  induction 1 as [|row row' done done' Hrow _ IH].
  - cbn. now destruct (clean_rows' rest).
  - cbn [app clean_rows]. rewrite (clean_items_all _ _ Hrow), IH.
    now destruct (clean_rows' rest).
Qed.

Lemma clean_rows_returns data :
  fst (clean_rows' data) = Returns tt ->
  Forall2 (Forall2 (cleaned py_int py_float)) data (snd (clean_rows' data)).
Proof.
  induction data as [|row rest IH]; [constructor|].
  cbn [clean_rows]. pose proof (clean_items_returns row) as Hrow.
  destruct (clean_items' row) as [[[]|e] row']; [|discriminate].
  destruct (clean_rows' rest) as [res rest']. cbn in *.
  intros Hres. constructor; auto.
Qed.

(** X25. [clean_data] keeps the shape of the data: as many rows as before,
    each as long as before, whether the call returns or raises. *)
Theorem clean_data_shape (data : list (list pyvalue)) :
  Forall2 (fun row row' => length row' = length row)
          data (snd (clean_data' data)).
Proof. rewrite clean_data_run. apply clean_rows_shape. Qed.

(** X26. [clean_data] returns normally exactly when every item can be
    cleaned, and then every item has been replaced, in its place, by its
    cleaned value. *)
Theorem clean_data_returns_iff (data : list (list pyvalue)) :
  (fst (clean_data' data) = Returns tt <->
   Forall (Forall (fun v => exists v', cleaned py_int py_float v v')) data) /\
  (fst (clean_data' data) = Returns tt ->
   Forall2 (Forall2 (cleaned py_int py_float)) data (snd (clean_data' data))).
Proof.
  rewrite clean_data_run. split; [split|].
  - intros Hres. apply clean_rows_returns in Hres.
    revert Hres. generalize (snd (clean_rows' data)).
    induction 1 as [|row row' rest rest' Hrow _ IH]; constructor; [|exact IH].
    clear - Hrow. induction Hrow; constructor; eauto.
  - intros Hall.
    assert (Hex : exists data',
               Forall2 (Forall2 (cleaned py_int py_float)) data data').
    { induction Hall as [|row rest Hrow _ [rest' IH]]; [now exists []|].
      assert (Hrow' : exists row',
                 Forall2 (cleaned py_int py_float) row row').
      { clear - Hrow. induction Hrow as [|v row [v' Hv] _ [row' IH]];
          [now exists []|].
        exists (v' :: row'). now constructor. }
      destruct Hrow' as [row' Hrow']. exists (row' :: rest').
      now constructor. }
    destruct Hex as [data' Hdata'].
    pose proof (clean_rows_app data data' [] Hdata') as H.
    cbn [clean_rows] in H. rewrite !app_nil_r in H. now rewrite H.
  - apply clean_rows_returns.
Qed.


Ltac settle_kind :=
  repeat match goal with
         | |- _ /\ _ => split
         | |- forall _, _ => intro
         | b : bool |- _ => destruct b
         end;
  (split; intros Hkind;
   [ try discriminate Hkind; try (injection Hkind as <-); auto
   | repeat match goal with
            | H : _ /\ _ |- _ => destruct H
            end;
     subst; try discriminate; try congruence; auto ]).

(** X28. What a string becomes: [None] exactly when it is empty, a [bool]
    exactly when it is ['True'] or ['False'], a [float] exactly when
    [is_number] accepts it and it holds a point, an [int] exactly when
    [is_number] accepts it and it holds no point, and otherwise itself. So
    ['null'] stays a string and ['5.0'] becomes a [float]. *)
Theorem clean_value_kinds (s : string) :
  (clean_value' (VStr s) = Returns VNone <-> s = EmptyString) /\
  (forall b, clean_value' (VStr s) = Returns (VBool b)
             <-> s = if b then "True"%string else "False"%string) /\
  (forall f, clean_value' (VStr s) = Returns (VFloat f)
             <-> is_number s = true /\ contains "." s = true /\
                 py_float s = Ok f) /\
  (forall n, clean_value' (VStr s) = Returns (VInt n)
             <-> is_number s = true /\ contains "." s = false /\
                 py_int s = Ok n) /\
  (forall s', clean_value' (VStr s) = Returns (VStr s')
              <-> s' = s /\ is_number s = false /\ s <> "True"%string /\
                  s <> "False"%string /\ s <> EmptyString).
Proof.
  unfold clean_value, eq_str.
  destruct (String.eqb_spec s "True") as [->|Htrue]; [settle_kind|].
  destruct (String.eqb_spec s "False") as [->|Hfalse]; [settle_kind|].
  destruct (String.eqb_spec s "") as [->|Hempty]; [settle_kind|].
  destruct (is_number s); [|settle_kind].
  destruct (contains "." s); unfold of_builtin.
  - destruct (py_float s); settle_kind.
  - destruct (py_int s); settle_kind.
Qed.

Lemma cleaned_settled v v' :
  cleaned py_int py_float v v' ->
  (is_str v' = true /\ clean_value' v' = Returns v') \/
  (is_str v' = false /\ clean_value' v' = Raises AttributeError).
Proof.
  unfold cleaned, clean_value. destruct v as [s| | | |]; cbn [eq_str];
    try discriminate.
  destruct (String.eqb_spec s "True") as [->|Htrue];
    [intros [= <-]; now right|].
  destruct (String.eqb_spec s "False") as [->|Hfalse];
    [intros [= <-]; now right|].
  destruct (String.eqb_spec s "") as [->|Hempty];
    [intros [= <-]; now right|].
  destruct (is_number s) eqn:Hnum.
  - destruct (contains "." s); unfold of_builtin.
    + destruct (py_float s); [intros [= <-]; now right | discriminate].
    + destruct (py_int s); [intros [= <-]; now right | discriminate].
  - intros [= <-]. left. split; [reflexivity|]. cbn [eq_str].
    rewrite (proj2 (String.eqb_neq _ _) Htrue).
    rewrite (proj2 (String.eqb_neq _ _) Hfalse).
    rewrite (proj2 (String.eqb_neq _ _) Hempty).
    now rewrite Hnum.
Qed.

Lemma clean_items_again row :
  Forall (fun v => (is_str v = true /\ clean_value' v = Returns v) \/
                   (is_str v = false /\ clean_value' v = Raises AttributeError))
         row ->
  clean_items' row =
    (if forallb is_str row then Returns tt else Raises AttributeError, row).
Proof.
  induction 1 as [|v rest [[Hstr Hv]|[Hstr Hv]] _ IH]; [reflexivity| |];
    cbn [clean_items forallb]; rewrite Hv, Hstr; [|reflexivity].
  now rewrite IH.
Qed.

Lemma clean_rows_again data :
  Forall (Forall (fun v =>
            (is_str v = true /\ clean_value' v = Returns v) \/
            (is_str v = false /\ clean_value' v = Raises AttributeError)))
         data ->
  clean_rows' data =
    (if all_strings data then Returns tt else Raises AttributeError, data).
Proof.
  unfold all_strings.
  induction 1 as [|row rest Hrow _ IH]; [reflexivity|].
  cbn [clean_rows forallb]. rewrite (clean_items_again _ Hrow).
  destruct (forallb is_str row); [|reflexivity].
  now rewrite IH.
Qed.

(** X29. [clean_data] cannot be run twice: after a call that returned, a
    second call changes nothing, and it returns only if every item is
    still a string; as soon as the first call turned an item into a
    number, a [bool] or [None], the second raises [AttributeError]. *)
Theorem clean_data_twice (data : list (list pyvalue)) :
  fst (clean_data' data) = Returns tt ->
  clean_data' (snd (clean_data' data)) =
    (if all_strings (snd (clean_data' data))
     then Returns tt else Raises AttributeError,
     snd (clean_data' data)).
Proof.
  intros Hres. rewrite (clean_data_run (snd _)).
  apply clean_rows_again.
  apply clean_data_returns_iff in Hres.
  revert Hres. generalize (snd (clean_data' data)).
  induction 1 as [|row row' rest rest' Hrow _ IH]; constructor; [|exact IH].
  clear - Hrow. induction Hrow as [|v v' row row' Hv _ IH]; constructor;
    [eapply cleaned_settled, Hv | exact IH].
Qed.

Lemma clean_value_raises s e :
  clean_value' (VStr s) = Raises e ->
  exists e', e = Builtin e' /\ is_number s = true /\
    ((contains "." s = true /\ py_float s = Raise e') \/
     (contains "." s = false /\ py_int s = Raise e')).
Proof.
  unfold clean_value, eq_str.
  destruct (String.eqb s "True"); [discriminate|].
  destruct (String.eqb s "False"); [discriminate|].
  destruct (String.eqb s ""); [discriminate|].
  destruct (is_number s); [|discriminate].
  destruct (contains "." s); unfold of_builtin.
  - destruct (py_float s) as [f|e']; [discriminate|].
    intros [= <-]. exists e'. auto.
  - destruct (py_int s) as [n|e']; [discriminate|].
    intros [= <-]. exists e'. auto.
Qed.

Lemma clean_items_strings_raise (row : list string) e :
  fst (clean_items' (VStr <$> row)) = Raises e ->
  exists s, s ∈ row /\ clean_value' (VStr s) = Raises e.
Proof.
  induction row as [|s rest IH]; [discriminate|].
  cbn [fmap list_fmap clean_items].
  destruct (clean_value' (VStr s)) as [v'|e0] eqn:Hs.
  - change (list_fmap string pyvalue VStr rest) with (VStr <$> rest).
    destruct (clean_items' (VStr <$> rest)) as [res rest'].
    cbn [fst] in *. intros Hres. destruct (IH Hres) as (s' & Hin & Hs').
    exists s'. split; [now apply list_elem_of_further | exact Hs'].
  - intros [= <-]. exists s. split; [apply list_elem_of_here | exact Hs].
Qed.

Lemma clean_rows_strings_raise (rows : list (list string)) e :
  fst (clean_rows' (strings_of rows)) = Raises e ->
  exists row s, row ∈ rows /\ s ∈ row /\ clean_value' (VStr s) = Raises e.
Proof.
  induction rows as [|row rest IH]; [discriminate|].
  change (strings_of (row :: rest))
    with ((VStr <$> row) :: strings_of rest).
  cbn [clean_rows].
  pose proof (clean_items_strings_raise row) as Hrow.
  destruct (clean_items' (VStr <$> row)) as [[[]|e0] row'].
  - destruct (clean_rows' (strings_of rest)) as [res rest'].
    cbn [fst] in *. intros Hres.
    destruct (IH Hres) as (row0 & s & Hin & Hs & Hv).
    exists row0, s. split; [now apply list_elem_of_further | auto].
  - cbn [fst] in *. intros [= <-].
    destruct (Hrow e0 eq_refl) as (s & Hin & Hs).
    exists row, s. split; [apply list_elem_of_here | auto].
Qed.

(** X30. From the file to the cleaned data: on the rows [csv_to_list]
    returns, [clean_data] raises only an exception of [int] or of [float],
    on an item that [is_number] accepts: [float] when the item holds a
    point, [int] when it holds none. It never raises [AttributeError]
    there. *)
Theorem clean_data_after_csv_to_list (csv_file : TextIO) (e : cleaning_exn) :
  fst (clean_data' (strings_of (fst (csv_to_list csv_file)))) = Raises e ->
  exists row s e',
    row ∈ fst (csv_to_list csv_file) /\ s ∈ row /\
    e = Builtin e' /\ is_number s = true /\
    ((contains "." s = true /\ py_float s = Raise e') \/
     (contains "." s = false /\ py_int s = Raise e')).
Proof.
  rewrite clean_data_run. intros Hres.
  destruct (clean_rows_strings_raise _ _ Hres) as (row & s & Hrow & Hs & Hv).
  destruct (clean_value_raises _ _ Hv) as (e' & -> & Hnum & Hwhich).
  exists row, s, e'. auto 6.
Qed.

(** The first docstring example of [clean_data], for builtins that read
    ['123'] and ['45.6'] as Python does. *)
Example clean_data_docstring :
  py_int "123" = Ok 123 ->
  py_float "45.6" = Ok (PyFloat.literal 456 10) ->
  clean_data'
    [[VStr "abc"; VStr "123"; VStr "45.6"; VStr "True"; VStr "False"]]
  = (Returns tt,
     [[VStr "abc"; VInt 123; VFloat (PyFloat.literal 456 10); VBool true;
       VBool false]]).
Proof.
  intros Hint Hfloat. rewrite clean_data_run.
  cbn [clean_rows clean_items]. unfold clean_value. cbn.
  unfold of_builtin. now rewrite Hint, Hfloat.
Qed.

End CleanDataProofs.

(** * The further properties on sample data *)

Lemma get_station_info_unique_witness :
  get_station_info 7087 SAMPLE_STATIONS =
    (Ok [PyStr "Danforth/Aldridge"; PyInt 9; PyInt 14], SAMPLE_STATIONS).
Proof.
  apply (get_station_info_unique 7087 SAMPLE_STATIONS 0 _ sample_unique_7087).
Defined.

Lemma get_station_info_absent_witness :
  get_station_info 9999 SAMPLE_STATIONS = (Ok [], SAMPLE_STATIONS).
Proof.
  apply (get_station_info_absent 9999 SAMPLE_STATIONS sample_absent_9999).
Defined.

Lemma rent_bike_totals_witness :
  exists bikes docks,
    fst (get_total COL_BIKES_AVAILABLE SAMPLE_STATIONS) = Ok bikes /\
    fst (get_total COL_DOCKS_AVAILABLE SAMPLE_STATIONS) = Ok docks /\
    fst (get_total COL_BIKES_AVAILABLE (snd (rent_bike 7087 SAMPLE_STATIONS)))
      = Ok (bikes - 1) /\
    fst (get_total COL_DOCKS_AVAILABLE (snd (rent_bike 7087 SAMPLE_STATIONS)))
      = Ok (docks + 1).
Proof.
  apply (rent_bike_totals 7087 SAMPLE_STATIONS 0 _ sample_unique_7087);
    reflexivity.
Defined.

Lemma return_bike_totals_witness :
  exists bikes docks,
    fst (get_total COL_BIKES_AVAILABLE SAMPLE_STATIONS) = Ok bikes /\
    fst (get_total COL_DOCKS_AVAILABLE SAMPLE_STATIONS) = Ok docks /\
    fst (get_total COL_BIKES_AVAILABLE
           (snd (return_bike 7087 SAMPLE_STATIONS))) = Ok (bikes + 1) /\
    fst (get_total COL_DOCKS_AVAILABLE
           (snd (return_bike 7087 SAMPLE_STATIONS))) = Ok (docks - 1).
Proof.
  apply (return_bike_totals 7087 SAMPLE_STATIONS 0 _ sample_unique_7087);
    reflexivity.
Defined.

Lemma rent_then_return_witness :
  fst (rent_bike 7087 SAMPLE_STATIONS) = Ok true /\
  return_bike 7087 (snd (rent_bike 7087 SAMPLE_STATIONS))
    = (Ok true, SAMPLE_STATIONS).
Proof.
  apply (rent_then_return 7087 SAMPLE_STATIONS 0 _ sample_unique_7087);
    first [ reflexivity | cbn; lia ].
Defined.

Lemma return_then_rent_witness :
  fst (return_bike 7087 SAMPLE_STATIONS) = Ok true /\
  rent_bike 7087 (snd (return_bike 7087 SAMPLE_STATIONS))
    = (Ok true, SAMPLE_STATIONS).
Proof.
  apply (return_then_rent 7087 SAMPLE_STATIONS 0 _ sample_unique_7087);
    first [ reflexivity | cbn; lia ].
Defined.

Lemma rent_return_keep_nonnegative_witness :
  counts_nonnegative (snd (rent_bike 7087 SAMPLE_STATIONS)) /\
  counts_nonnegative (snd (return_bike 7087 SAMPLE_STATIONS)).
Proof.
  apply (rent_return_keep_nonnegative 7087 SAMPLE_STATIONS).
  repeat constructor; cbn; lia.
Defined.

Lemma closed_station_untouched_witness :
  mutate Balance_all_bikes SAMPLE_STATIONS !! 1%nat =
    Some (mkStation 7088 "Danforth/Coxwell"
            (PyFloat.literal 43683378 1000000)
            (SFopp (PyFloat.literal 79322961 1000000)) 15 13 2 false false).
Proof.
  apply (closed_station_untouched Balance_all_bikes SAMPLE_STATIONS 1);
    reflexivity.
Defined.

Lemma balance_keeps_station_at_target_witness :
  snd (balance_all_bikes EVEN_STATIONS) !! 0%nat =
    Some (mkStation 1 "Small" (PyFloat.literal 43 1)
            (SFopp (PyFloat.literal 79 1)) 10 5 5 true true).
Proof.
  apply (balance_keeps_station_at_target EVEN_STATIONS 50 0).
  - vm_compute. reflexivity.
  - reflexivity.
  - vm_compute. reflexivity.
Defined.

Lemma balance_all_bikes_raise_unchanged_witness :
  snd (balance_all_bikes NO_PLACES_STATIONS) = NO_PLACES_STATIONS.
Proof.
  apply (balance_all_bikes_raise_unchanged NO_PLACES_STATIONS
           ZeroDivisionError).
  vm_compute. reflexivity.
Defined.

Lemma balance_all_bikes_no_places_witness :
  balance_all_bikes [] = (Raise ZeroDivisionError, []).
Proof. apply (balance_all_bikes_no_places []). reflexivity. Defined.

Lemma balance_all_bikes_station_no_places_witness :
  exists e,
    balance_all_bikes NO_PLACES_STATIONS = (Raise e, NO_PLACES_STATIONS).
Proof.
  apply (balance_all_bikes_station_no_places NO_PLACES_STATIONS 0
           (mkStation 1 "Closed" (PyFloat.literal 43 1)
              (SFopp (PyFloat.literal 79 1)) 0 0 0 false false));
    reflexivity.
Defined.

Lemma get_direction_absent_id_witness :
  get_direction atan2_at_samples 9999 7088 SAMPLE_STATIONS
    = (Raise UnboundLocalError, SAMPLE_STATIONS).
Proof.
  apply (get_direction_absent_id atan2_at_samples 9999 7088 SAMPLE_STATIONS).
  left. exact sample_absent_9999.
Defined.

Lemma get_stations_with_n_docks_antitone_witness :
  exists ids_n ids_m,
    fst (get_stations_with_n_docks 2 SAMPLE_STATIONS) = Ok ids_n /\
    fst (get_stations_with_n_docks 5 SAMPLE_STATIONS) = Ok ids_m /\
    ids_m `sublist_of` ids_n /\
    ids_n `sublist_of` (ID <$> SAMPLE_STATIONS).
Proof.
  apply (get_stations_with_n_docks_antitone 2 5 SAMPLE_STATIONS). lia.
Defined.


Lemma clean_data_twice_witness :
  clean_data digits_int no_float
    (snd (clean_data digits_int no_float [[VStr "abc"; VStr "12"]])) =
    (if all_strings
          (snd (clean_data digits_int no_float [[VStr "abc"; VStr "12"]]))
     then Returns tt else Raises AttributeError,
     snd (clean_data digits_int no_float [[VStr "abc"; VStr "12"]])).
Proof.
  apply (clean_data_twice digits_int no_float [[VStr "abc"; VStr "12"]]).
  reflexivity.
Defined.

Lemma clean_data_after_csv_to_list_witness :
  exists row s e',
    row ∈ fst (csv_to_list ["id,name"; "12,+-3"]%string) /\ s ∈ row /\
    Builtin ValueError = Builtin e' /\ is_number s = true /\
    ((contains "." s = true /\ no_float s = Raise e') \/
     (contains "." s = false /\ digits_int s = Raise e')).
Proof.
  apply (clean_data_after_csv_to_list digits_int no_float
           ["id,name"; "12,+-3"]%string (Builtin ValueError)).
  reflexivity.
Defined.
